(** * hitcastor-evidence-store: hash utilities, backend adapters and the
      EvidenceStore orchestrator, embedded from the TypeScript sources.

    - [src/lib/hash.ts]           : [sha256], [verifyHash], [generateIntegrityMetadata]
    - [src/lib/s3-store.ts]       : [S3Store]
    - [src/lib/ipfs-store.ts]     : [IPFSStore]
    - [src/lib/evidence-store.ts] : [EvidenceStore]

    Node's [crypto.createHash('sha256')] is the FIPS 180-4 function; it is
    written out in [Module SHA256] so that digests can be evaluated. *)

From Stdlib Require Import ZArith List Ascii String Lia Bool DecimalString.
From Stdlib.Strings Require Import Byte.
From Stdlib.Floats Require SpecFloat.
From stdpp Require Import gmap strings.
Import ListNotations.

Local Open Scope Z_scope.

(** ** FIPS 180-4 SHA-256 over 32-bit words held in [Z] *)

Module SHA256.

Definition word := Z.

Definition wrap (x : Z) : word := x mod 2 ^ 32.
Definition add (x y : word) : word := wrap (x + y).

Definition rotr (n : Z) (x : word) : word :=
  Z.lor (Z.shiftr x n) (wrap (Z.shiftl x (32 - n))).
Definition shr (n : Z) (x : word) : word := Z.shiftr x n.
Definition lnot32 (x : word) : word := Z.lxor x 4294967295.

Definition Ch (x y z : word) : word :=
  Z.lxor (Z.land x y) (Z.land (lnot32 x) z).
Definition Maj (x y z : word) : word :=
  Z.lxor (Z.lxor (Z.land x y) (Z.land x z)) (Z.land y z).
Definition Sigma0 (x : word) : word :=
  Z.lxor (Z.lxor (rotr 2 x) (rotr 13 x)) (rotr 22 x).
Definition Sigma1 (x : word) : word :=
  Z.lxor (Z.lxor (rotr 6 x) (rotr 11 x)) (rotr 25 x).
Definition sigma0 (x : word) : word :=
  Z.lxor (Z.lxor (rotr 7 x) (rotr 18 x)) (shr 3 x).
Definition sigma1 (x : word) : word :=
  Z.lxor (Z.lxor (rotr 17 x) (rotr 19 x)) (shr 10 x).

(** The round constants, in decimal. *)
Definition K : list word :=
  [
    1116352408; 1899447441; 3049323471; 3921009573; 961987163; 1508970993;
    2453635748; 2870763221; 3624381080; 310598401; 607225278; 1426881987;
    1925078388; 2162078206; 2614888103; 3248222580; 3835390401; 4022224774;
    264347078; 604807628; 770255983; 1249150122; 1555081692; 1996064986;
    2554220882; 2821834349; 2952996808; 3210313671; 3336571891; 3584528711;
    113926993; 338241895; 666307205; 773529912; 1294757372; 1396182291;
    1695183700; 1986661051; 2177026350; 2456956037; 2730485921; 2820302411;
    3259730800; 3345764771; 3516065817; 3600352804; 4094571909; 275423344;
    430227734; 506948616; 659060556; 883997877; 958139571; 1322822218;
    1537002063; 1747873779; 1955562222; 2024104815; 2227730452; 2361852424;
    2428436474; 2756734187; 3204031479; 3329325298 ].

(** The eight working variables / the intermediate hash value. *)
Record state := State {
  ha : word; hb : word; hc : word; hd : word;
  he : word; hf : word; hg : word; hh : word }.

Definition H0 : state :=
  State 1779033703 3144134277 1013904242 2773480762
        1359893119 2600822924 528734635 1541459225.

(** Padding: a 1 bit, zero bits up to 448 mod 512, the bit length on 64 bits. *)
Definition be_bytes (n : nat) (x : Z) : list Z :=
  map (fun i => Z.land (Z.shiftr x (8 * Z.of_nat i)) 255) (rev (seq 0 n)).

Definition pad (msg : list Z) : list Z :=
  let len := Z.of_nat (length msg) in
  let zeros := Z.to_nat ((55 - len) mod 64) in
  msg ++ [128] ++ repeat 0 zeros ++ be_bytes 8 (8 * len).

Fixpoint be_words (bs : list Z) : list word :=
  match bs with
  | b0 :: b1 :: b2 :: b3 :: rest =>
      (((b0 * 256 + b1) * 256 + b2) * 256 + b3) :: be_words rest
  | _ => []
  end.

(** Message schedule: [extend n w] appends [n] words to the 16 block words. *)
Definition nth_back (i : nat) (rw : list word) : word := nth (i - 1) rw 0.

Fixpoint extend (n : nat) (rw : list word) : list word :=
  match n with
  | O => rw
  | S n' =>
      let wt := add (add (sigma1 (nth_back 2 rw)) (nth_back 7 rw))
                    (add (sigma0 (nth_back 15 rw)) (nth_back 16 rw)) in
      extend n' (wt :: rw)
  end.

Definition schedule (block : list word) : list word :=
  rev (extend 48 (rev block)).

Definition round (s : state) (kw : word * word) : state :=
  let '(k, w) := kw in
  let t1 := add (add (add (add (hh s) (Sigma1 (he s))) (Ch (he s) (hf s) (hg s))) k) w in
  let t2 := add (Sigma0 (ha s)) (Maj (ha s) (hb s) (hc s)) in
  State (add t1 t2) (ha s) (hb s) (hc s) (add (hd s) t1) (he s) (hf s) (hg s).

Definition compress (h : state) (block : list word) : state :=
  let s := fold_left round (combine K (schedule block)) h in
  State (add (ha h) (ha s)) (add (hb h) (hb s)) (add (hc h) (hc s))
        (add (hd h) (hd s)) (add (he h) (he s)) (add (hf h) (hf s))
        (add (hg h) (hg s)) (add (hh h) (hh s)).

(** Absorb the padded message sixteen words at a time. *)
Fixpoint absorb (blocks : nat) (h : state) (ws : list word) : state :=
  match blocks with
  | O => h
  | S n => absorb n (compress h (firstn 16 ws)) (skipn 16 ws)
  end.

Definition state_words (s : state) : list word :=
  [ha s; hb s; hc s; hd s; he s; hf s; hg s; hh s].

Definition digest_bytes (msg : list Z) : list Z :=
  let ws := be_words (pad msg) in
  let h := absorb (length ws / 16) H0 ws in
  concat (map (be_bytes 4) (state_words h)).

End SHA256.

(** ** JavaScript values

    A JavaScript string is represented by its UTF-8 encoding, held in a Rocq
    [string] (a sequence of 8-bit characters); a [Buffer] is a list of bytes.
    [Buffer.from(s, 'utf8')] is then the byte list of [s], and
    [Buffer.byteLength(s, 'utf8')] its length. *)

Definition bytes := list byte.

Definition byte_val (b : byte) : Z := Z.of_N (Byte.to_N b).

(** [string | Buffer] *)
Inductive Data :=
  | Text (s : string)
  | Buffer (b : bytes).

Definition Buffer_isBuffer (data : Data) : bool :=
  match data with Buffer _ => true | Text _ => false end.

Definition Buffer_from (data : Data) : bytes :=
  match data with
  | Text s => list_byte_of_string s
  | Buffer b => b
  end.

Definition Buffer_byteLength (s : string) : Z := Z.of_nat (String.length s).

(** Truthiness of an optional string ([undefined] and [''] are falsy). *)
Definition truthy (o : option string) : bool :=
  match o with
  | Some s => negb (String.eqb s "")
  | None => false
  end.

(** A JavaScript number is an IEEE 754 double: a zero of either sign, an
    infinity, [NaN], or a finite non-zero value. *)
Definition number : Type := SpecFloat.spec_float.

(** The double of an integer literal. *)
Definition Number_of_Z (z : Z) : number := SpecFloat.binary_normalize 53 1024 z 0 false.

(** Truthiness of a number: [0], [-0] and [NaN] are falsy. *)
Definition Number_truthy (x : number) : bool :=
  match x with
  | SpecFloat.S754_zero _ | SpecFloat.S754_nan => false
  | SpecFloat.S754_infinity _ | SpecFloat.S754_finite _ _ _ => true
  end.

(** [digest('hex')]: two lowercase hexadecimal digits per byte. *)
Definition hex_digit (d : Z) : ascii :=
  match String.get (Z.to_nat d) "0123456789abcdef" with
  | Some c => c
  | None => "0"%char
  end.

Fixpoint hex (bs : list Z) : string :=
  match bs with
  | [] => EmptyString
  | b :: rest => String (hex_digit (b / 16)) (String (hex_digit (b mod 16)) (hex rest))
  end.

Definition is_lower_hex (c : ascii) : bool :=
  let n := nat_of_ascii c in
  ((48 <=? n)%nat && (n <=? 57)%nat) || ((97 <=? n)%nat && (n <=? 102)%nat).

(** ** src/lib/hash.ts *)

Definition sha256 (input : Data) : string :=
  "0x" +:+ hex (SHA256.digest_bytes (map byte_val (Buffer_from input))).

Definition verifyHash (data : Data) (expectedHash : string) : bool :=
  let computedHash := sha256 data in
  String.eqb computedHash expectedHash.

(** ** Numbers and dates of the JavaScript runtime *)

(** [Number.prototype.toString] on an integer. *)
Definition Number_toString (n : Z) : string :=
  NilZero.string_of_int (Z.to_int n).

Definition digit_char (d : Z) : ascii := ascii_of_nat (48 + Z.to_nat d).

Fixpoint digits (width : nat) (n : Z) : string :=
  match width with
  | O => EmptyString
  | S w => digits w (n / 10) +:+ String (digit_char (n mod 10)) EmptyString
  end.

(** Proleptic Gregorian date of a day number counted from 1970-01-01. *)
Definition civil_from_days (days : Z) : Z * Z * Z :=
  let z := days + 719468 in
  let era := z / 146097 in
  let doe := z - era * 146097 in
  let yoe := (doe - doe / 1460 + doe / 36524 - doe / 146096) / 365 in
  let doy := doe - (365 * yoe + yoe / 4 - yoe / 100) in
  let mp := (5 * doy + 2) / 153 in
  let d := doy - (153 * mp + 2) / 5 + 1 in
  let m := if mp <? 10 then mp + 3 else mp - 9 in
  let y := yoe + era * 400 + (if m <=? 2 then 1 else 0) in
  (y, m, d).

(** [new Date(t).toISOString()] for a time value [t] in milliseconds. *)
Definition toISOString (t : Z) : string :=
  let '(y, m, d) := civil_from_days (t / 86400000) in
  let ms := t mod 86400000 in
  let year :=
    if (0 <=? y) && (y <=? 9999) then digits 4 y
    else (if y <? 0 then "-" else "+") +:+ digits 6 (Z.abs y) in
  year +:+ "-" +:+ digits 2 m +:+ "-" +:+ digits 2 d +:+ "T"
    +:+ digits 2 (ms / 3600000) +:+ ":" +:+ digits 2 (ms / 60000 mod 60) +:+ ":"
    +:+ digits 2 (ms / 1000 mod 60) +:+ "." +:+ digits 3 (ms mod 1000) +:+ "Z".

(** [String.prototype.slice(n)] *)
Fixpoint slice (n : nat) (s : string) : string :=
  match n, s with
  | S n', String _ rest => slice n' rest
  | _, _ => s
  end.

Arguments sha256 : simpl never.
Arguments toISOString : simpl never.
Arguments Number_toString : simpl never.
Arguments slice : simpl never.

(** ** Errors and settled promises *)

(** What the AWS SDK or the IPFS HTTP client reports when a call fails. *)
Module ClientFailure.
Record t := { name : string; message : string }.
End ClientFailure.

(** An exception is either created by this code with [new Error(message)]
    or is a failure raised by one of the two clients; the two are different
    objects even when their messages coincide. *)
Inductive js_error :=
  | Error (message : string)
  | ClientError (failure : ClientFailure.t).

(** [error.name] *)
Definition error_name (e : js_error) : string :=
  match e with
  | Error _ => "Error"
  | ClientError failure => ClientFailure.name failure
  end.

(** The reply of a client to one call. *)
Inductive reply (A : Type) :=
  | ok (value : A)
  | failed (failure : ClientFailure.t).
Arguments ok {A} value.
Arguments failed {A} failure.

Definition is_ok {A} (r : reply A) : bool :=
  match r with ok _ => true | failed _ => false end.

(** The settlement of a promise, as [Promise.allSettled] reports it. *)
Inductive settled (A : Type) :=
  | fulfilled (value : A)
  | rejected (reason : js_error).
Arguments fulfilled {A} value.
Arguments rejected {A} reason.

Definition is_rejected {A} (r : settled A) : bool :=
  match r with rejected _ => true | fulfilled _ => false end.
Definition is_fulfilled {A} (r : settled A) : bool := negb (is_rejected r).

#[global] Instance settled_fmap : FMap settled :=
  fun A B f r =>
    match r with
    | fulfilled a => fulfilled (f a)
    | rejected e => rejected e
    end.

(** Sequencing of synchronous code: an exception skips what follows. *)
#[global] Instance settled_bind : MBind settled :=
  fun A B k r =>
    match r with
    | fulfilled a => k a
    | rejected e => rejected e
    end.

(** The error taxonomy of the specification, as the code raises it. *)
Definition ConfigurationError : js_error :=
  Error "At least one store (S3 or IPFS) must be configured".
Definition AllBackendsFailedError : js_error :=
  Error "All storage operations failed".
Definition NoSourceAvailableError : js_error :=
  Error "No valid storage source provided or available".
Definition IntegrityError (key : string) : js_error :=
  Error ("Hash verification failed for object: " +:+ key).
Definition NotFoundError (key : string) : js_error :=
  Error ("Object not found: " +:+ key).

(** ** src/lib/types.ts *)

Module S3Config.
Record t := {
  endpoint : string; region : string;
  accessKeyId : string; secretAccessKey : string;
  bucket : string; objectLockEnabled : option bool }.
End S3Config.

Module IPFSConfig.
Record t := { endpoint : string; timeout : option number }.
End IPFSConfig.

Module EvidenceStoreConfig.
Record t := { s3 : option S3Config.t; ipfs : option IPFSConfig.t }.
End EvidenceStoreConfig.

Module IntegrityMetadata.
Record t := { hash : string; size : Z; timestamp : string }.
End IntegrityMetadata.

Module StoreResult.
Record t := {
  hash : string; size : Z;
  s3Key : option string; ipfsHash : option string;
  timestamp : string }.
End StoreResult.

Module RetrieveResult.
Record t := { data : bytes; metadata : IntegrityMetadata.t }.
End RetrieveResult.

Module EvidenceMetadata.
Record t := {
  hash : string; size : Z; timestamp : string;
  s3Key : option string; ipfsHash : option string;
  verified : bool }.
End EvidenceMetadata.

(** [{ s3Key?: string; ipfsHash?: string }] *)
Module Source.
Record t := { s3Key : option string; ipfsHash : option string }.
End Source.

(** ** The outside world: the clock, the S3 service and the IPFS node *)

(** [new S3Client({ endpoint, region, credentials })] *)
Module S3Client.
Record t := {
  endpoint : string; region : string;
  accessKeyId : string; secretAccessKey : string }.
End S3Client.

(** [createIPFS({ url, timeout })] *)
Module IPFSClient.
Record t := { url : string; timeout : number }.
End IPFSClient.

(** The constructors of the two client libraries, which this repository does
    not contain: on given options each either throws or returns a client,
    and a client is known by the options it was built with. [None] stands
    for a constructor that returns. *)
Record Libraries := {
  S3Client_throws : S3Client.t -> option ClientFailure.t;
  createIPFS_throws : IPFSClient.t -> option ClientFailure.t }.

(** A call to a library constructor: the client, or the library's exception. *)
Definition construct {A} (thrown : option ClientFailure.t) (client : A) : settled A :=
  match thrown with
  | Some failure => rejected (ClientError failure)
  | None => fulfilled client
  end.

(** [new S3Client(options)] *)
Definition S3Client_new (lib : Libraries) (options : S3Client.t) : settled S3Client.t :=
  construct (S3Client_throws lib options) options.

(** [createIPFS(options)] *)
Definition createIPFS (lib : Libraries) (options : IPFSClient.t) : settled IPFSClient.t :=
  construct (createIPFS_throws lib options) options.

Module PutObjectCommand.
Record t := {
  Bucket : string; Key : string; Body : bytes; ContentType : string;
  Metadata : gmap string string;
  ObjectLockMode : option string;
  ObjectLockRetainUntilDate : option Z }.
End PutObjectCommand.

(** The input shared by [GetObjectCommand] and [HeadObjectCommand]. *)
Module ObjectRequest.
Record t := { Bucket : string; Key : string }.
End ObjectRequest.

(** The response to a [GetObjectCommand]; [Body], when there is one, is a
    stream whose [transformToByteArray()] settles with the bytes or fails. *)
Module GetObjectOutput.
Record t := {
  Body : option (reply bytes);
  Metadata : option (gmap string string) }.
End GetObjectOutput.

(** What an async iterator produced: the items it yielded, then the error
    that ended it, if any. *)
Module Iterated.
Record t (A : Type) := { yielded : list A; failure : option ClientFailure.t }.
Arguments yielded {A} _.
Arguments failure {A} _.
End Iterated.

(** Every interaction with the outside world, with its outcome. *)
Inductive event :=
  | EvClock (now : Z)
  | EvPutObject (client : S3Client.t) (cmd : PutObjectCommand.t) (r : reply unit)
  | EvGetObject (client : S3Client.t) (cmd : ObjectRequest.t) (r : reply GetObjectOutput.t)
  | EvHeadObject (client : S3Client.t) (cmd : ObjectRequest.t) (r : reply unit)
  | EvAdd (client : IPFSClient.t) (content : bytes) (pin : bool) (timeout : number)
          (r : reply string)
  | EvCat (client : IPFSClient.t) (path : string) (timeout : number) (r : Iterated.t bytes)
  | EvPinLs (client : IPFSClient.t) (paths : list string) (r : Iterated.t string).

(** The environment decides every outcome from its own state [W]. *)
Record Env (W : Type) := {
  clock : W -> Z * W;
  PutObject : S3Client.t -> PutObjectCommand.t -> W -> reply unit * W;
  GetObject : S3Client.t -> ObjectRequest.t -> W -> reply GetObjectOutput.t * W;
  HeadObject : S3Client.t -> ObjectRequest.t -> W -> reply unit * W;
  add : IPFSClient.t -> bytes -> bool -> number -> W -> reply string * W;
  cat : IPFSClient.t -> string -> number -> W -> Iterated.t bytes * W;
  pin_ls : IPFSClient.t -> list string -> W -> Iterated.t string * W }.
Arguments clock {W} _ _.
Arguments PutObject {W} _ _ _ _.
Arguments GetObject {W} _ _ _ _.
Arguments HeadObject {W} _ _ _ _.
Arguments add {W} _ _ _ _ _ _.
Arguments cat {W} _ _ _ _ _.
Arguments pin_ls {W} _ _ _ _.

(** ** Asynchronous code: state passing with exceptions and a trace *)

Record machine (W : Type) := Machine { world : W; trace : list event }.
Arguments Machine {W} _ _.
Arguments world {W} _.
Arguments trace {W} _.

Definition M (W A : Type) : Type := machine W -> settled A * machine W.

Definition ret {W A} (a : A) : M W A := fun s => (fulfilled a, s).

Definition throw {W A} (e : js_error) : M W A := fun s => (rejected e, s).

(** Awaiting a client call: a failure is thrown as the client's error. *)
Definition await {W A} (r : reply A) : M W A :=
  match r with
  | ok a => ret a
  | failed failure => throw (ClientError failure)
  end.

Definition bind {W A B} (m : M W A) (k : A -> M W B) : M W B :=
  fun s =>
    match m s with
    | (fulfilled a, s') => k a s'
    | (rejected e, s') => (rejected e, s')
    end.

(** [try { m } catch (error) { handler }] *)
Definition try_catch {W A} (m : M W A) (handler : js_error -> M W A) : M W A :=
  fun s =>
    match m s with
    | (fulfilled a, s') => (fulfilled a, s')
    | (rejected e, s') => handler e s'
    end.

(** A promise observed through its settlement; never rejects. *)
Definition settle {W A} (m : M W A) : M W (settled A) :=
  fun s => let '(r, s') := m s in (fulfilled r, s').

(** [Promise.allSettled] *)
Fixpoint allSettled {W A} (promises : list (M W A)) : M W (list (settled A)) :=
  match promises with
  | [] => ret []
  | p :: rest =>
      bind (settle p) (fun r => bind (allSettled rest) (fun rs => ret (r :: rs)))
  end.

Notation "x <- m ;; k" := (bind m (fun x => k))
  (at level 100, m at next level, right associativity).

(** Runs a computation from a world with an empty trace. *)
Definition run {W A} (m : M W A) (w : W) : settled A * machine W := m (Machine w []).

Section Effects.
Context {W : Type} (env : Env W).

Definition record {A} (call : W -> A * W) (ev : A -> event) : machine W -> A * machine W :=
  fun s => let '(a, w') := call (world s) in (a, Machine w' (trace s ++ [ev a])).

(** A call to the outside world: the world answers and moves on, the
    exchange is appended to the trace. *)
Definition call {A} (f : W -> A * W) (ev : A -> event) : M W A :=
  fun s => let '(a, s') := record f ev s in (fulfilled a, s').

(** [Date.now()] *)
Definition Date_now : M W Z := call (clock env) EvClock.

(** [new Date().toISOString()] *)
Definition Date_toISOString : M W string :=
  now <- Date_now ;; ret (toISOString now).

Definition send_PutObject (client : S3Client.t) (cmd : PutObjectCommand.t) : M W unit :=
  r <- call (PutObject env client cmd) (EvPutObject client cmd) ;; await r.

Definition send_GetObject (client : S3Client.t) (cmd : ObjectRequest.t)
  : M W GetObjectOutput.t :=
  r <- call (GetObject env client cmd) (EvGetObject client cmd) ;; await r.

Definition send_HeadObject (client : S3Client.t) (cmd : ObjectRequest.t) : M W unit :=
  r <- call (HeadObject env client cmd) (EvHeadObject client cmd) ;; await r.

Definition client_add (client : IPFSClient.t) (content : bytes) (pin : bool)
    (timeout : number) : M W string :=
  r <- call (add env client content pin timeout) (EvAdd client content pin timeout) ;;
  await r.

Definition client_cat (client : IPFSClient.t) (path : string) (timeout : number)
  : M W (Iterated.t bytes) :=
  call (cat env client path timeout) (EvCat client path timeout).

Definition client_pin_ls (client : IPFSClient.t) (paths : list string)
  : M W (Iterated.t string) :=
  call (pin_ls env client paths) (EvPinLs client paths).

(** [transformToByteArray()] on a response body. *)
Definition transformToByteArray (body : reply bytes) : M W bytes := await body.

(** src/lib/hash.ts: [generateIntegrityMetadata] *)
Definition generateIntegrityMetadata (data : Data) : M W IntegrityMetadata.t :=
  timestamp <- Date_toISOString ;;
  ret {| IntegrityMetadata.hash := sha256 data;
         IntegrityMetadata.size :=
           match data with
           | Buffer b => Z.of_nat (length b)
           | Text s => Buffer_byteLength s
           end;
         IntegrityMetadata.timestamp := timestamp |}.

End Effects.

(** [a || b] on an optional string: [a] when truthy, otherwise [b] is evaluated. *)
Definition or_else {W} (a : option string) (b : M W string) : M W string :=
  match a with
  | Some s => if truthy a then ret s else b
  | None => b
  end.

(** [field && store]: the two values when both are truthy. *)
Definition both {A} (field : option string) (store : option A) : option (string * A) :=
  match field, store with
  | Some s, Some st => if truthy field then Some (s, st) else None
  | _, _ => None
  end.

(** [Array.prototype.entries] *)
Definition entries {A} (l : list A) : list (nat * A) := combine (seq 0 (length l)) l.

(** [.filter(Boolean)] on an array of promises and [undefined]s. *)
Definition filter_Boolean {A} (l : list (option A)) : list A := omap id l.

(** ** src/lib/s3-store.ts *)

Module S3Store.

Record t := { client : S3Client.t; bucket : string; objectLockEnabled : bool }.

(** The constructor, which throws what [new S3Client] throws. *)
Definition new (lib : Libraries) (config : S3Config.t) : settled t :=
  client ← S3Client_new lib
              {| S3Client.endpoint := S3Config.endpoint config;
                 S3Client.region := S3Config.region config;
                 S3Client.accessKeyId := S3Config.accessKeyId config;
                 S3Client.secretAccessKey := S3Config.secretAccessKey config |};
  fulfilled {| client := client;
               bucket := S3Config.bucket config;
               objectLockEnabled := default false (S3Config.objectLockEnabled config) |}.

Section Methods.
Context {W : Type} (env : Env W).

Definition store (self : t) (data : Data) (key : option string) : M W StoreResult.t :=
  let buffer := Buffer_from data in
  metadata <- generateIntegrityMetadata env (Buffer buffer) ;;
  let objectKey :=
    match key with
    | Some k => k
    | None => "evidence/" +:+ slice 2 (IntegrityMetadata.hash metadata)
    end in
  retainUntil <-
    (if objectLockEnabled self
     then now <- Date_now env ;; ret (Some (now + 365 * 24 * 60 * 60 * 1000))
     else ret None) ;;
  let putCommand :=
    {| PutObjectCommand.Bucket := bucket self;
       PutObjectCommand.Key := objectKey;
       PutObjectCommand.Body := buffer;
       PutObjectCommand.ContentType := "application/octet-stream";
       PutObjectCommand.Metadata :=
         <["content-hash" := IntegrityMetadata.hash metadata]>
         (<["content-size" := Number_toString (IntegrityMetadata.size metadata)]>
         (<["upload-timestamp" := IntegrityMetadata.timestamp metadata]> ∅));
       PutObjectCommand.ObjectLockMode :=
         if objectLockEnabled self then Some "GOVERNANCE" else None;
       PutObjectCommand.ObjectLockRetainUntilDate := retainUntil |} in
  _ <- send_PutObject env (client self) putCommand ;;
  ret {| StoreResult.hash := IntegrityMetadata.hash metadata;
         StoreResult.size := IntegrityMetadata.size metadata;
         StoreResult.s3Key := Some objectKey;
         StoreResult.ipfsHash := None;
         StoreResult.timestamp := IntegrityMetadata.timestamp metadata |}.

Definition retrieve (self : t) (key : string) : M W RetrieveResult.t :=
  let getCommand := {| ObjectRequest.Bucket := bucket self; ObjectRequest.Key := key |} in
  response <- send_GetObject env (client self) getCommand ;;
  match GetObjectOutput.Body response with
  | None => throw (Error ("Object not found: " +:+ key))
  | Some body =>
      data <- transformToByteArray body ;;
      let storedHash := GetObjectOutput.Metadata response ≫= (.!! "content-hash") in
      if truthy storedHash && negb (verifyHash (Buffer data) (default "" storedHash))
      then throw (Error ("Hash verification failed for object: " +:+ key))
      else
        hash <- or_else storedHash
                  (m <- generateIntegrityMetadata env (Buffer data) ;;
                   ret (IntegrityMetadata.hash m)) ;;
        timestamp <- or_else (GetObjectOutput.Metadata response ≫= (.!! "upload-timestamp"))
                       (Date_toISOString env) ;;
        ret {| RetrieveResult.data := data;
               RetrieveResult.metadata :=
                 {| IntegrityMetadata.hash := hash;
                    IntegrityMetadata.size := Z.of_nat (length data);
                    IntegrityMetadata.timestamp := timestamp |} |}
  end.

Definition exists_ (self : t) (key : string) : M W bool :=
  try_catch
    (let headCommand :=
       {| ObjectRequest.Bucket := bucket self; ObjectRequest.Key := key |} in
     _ <- send_HeadObject env (client self) headCommand ;;
     ret true)
    (fun error =>
       if String.eqb (error_name error) "NoSuchKey"
          || String.eqb (error_name error) "NotFound"
       then ret false
       else throw error).

(** [getSignedUrl] of [@aws-sdk/s3-request-presigner], which this
    repository does not contain: any computation of a URL from the client,
    the command and the expiry. *)
Variable presign : S3Client.t -> ObjectRequest.t -> Z -> M W string.

(** [expiresIn] defaults to 3600 when it is [undefined]. *)
Definition getSignedUrl (self : t) (key : string) (expiresIn : option Z) : M W string :=
  let expiresIn := default 3600 expiresIn in
  let getCommand := {| ObjectRequest.Bucket := bucket self; ObjectRequest.Key := key |} in
  presign (client self) getCommand expiresIn.

End Methods.
End S3Store.

(** ** src/lib/ipfs-store.ts *)

Module IPFSStore.

Record t := { client : IPFSClient.t; timeout : number }.

(** [config.timeout || 30000]: the configured timeout when it is truthy. *)
Definition timeout_or_default (timeout : option number) : number :=
  match timeout with
  | Some n => if Number_truthy n then n else Number_of_Z 30000
  | None => Number_of_Z 30000
  end.

(** The constructor, which throws what [createIPFS] throws. *)
Definition new (lib : Libraries) (config : IPFSConfig.t) : settled t :=
  client ← createIPFS lib
              {| IPFSClient.url := IPFSConfig.endpoint config;
                 IPFSClient.timeout := timeout_or_default (IPFSConfig.timeout config) |};
  fulfilled {| client := client;
               timeout := timeout_or_default (IPFSConfig.timeout config) |}.

Section Methods.
Context {W : Type} (env : Env W).

Definition store (self : t) (data : Data) : M W StoreResult.t :=
  let buffer := Buffer_from data in
  metadata <- generateIntegrityMetadata env (Buffer buffer) ;;
  cid <- client_add env (client self) buffer true (timeout self) ;;
  ret {| StoreResult.hash := IntegrityMetadata.hash metadata;
         StoreResult.size := IntegrityMetadata.size metadata;
         StoreResult.s3Key := None;
         StoreResult.ipfsHash := Some cid;
         StoreResult.timestamp := IntegrityMetadata.timestamp metadata |}.

Definition retrieve (self : t) (ipfsHash : string) : M W RetrieveResult.t :=
  chunks <- client_cat env (client self) ipfsHash (timeout self) ;;
  match Iterated.failure chunks with
  | Some failure => throw (ClientError failure)
  | None =>
      let data := concat (Iterated.yielded chunks) in
      metadata <- generateIntegrityMetadata env (Buffer data) ;;
      timestamp <- Date_toISOString env ;;
      ret {| RetrieveResult.data := data;
             RetrieveResult.metadata :=
               {| IntegrityMetadata.hash := IntegrityMetadata.hash metadata;
                  IntegrityMetadata.size := IntegrityMetadata.size metadata;
                  IntegrityMetadata.timestamp := timestamp |} |}
  end.

Definition exists_ (self : t) (ipfsHash : string) : M W bool :=
  try_catch
    (results <- client_pin_ls env (client self) [ipfsHash] ;;
     match Iterated.yielded results with
     | cid :: _ => ret (String.eqb cid ipfsHash)
     | [] =>
         match Iterated.failure results with
         | Some failure => throw (ClientError failure)
         | None => ret false
         end
     end)
    (fun error => ret false).

(** [gateway] defaults to ['https://ipfs.io'] when it is [undefined]. *)
Definition getGatewayUrl (self : t) (ipfsHash : string) (gateway : option string)
  : M W string :=
  let gateway := default "https://ipfs.io" gateway in
  ret (gateway +:+ "/ipfs/" +:+ ipfsHash).

End Methods.
End IPFSStore.

(** ** src/lib/evidence-store.ts *)

Module StoreOptions.
Record t := { s3Key : option string }.
End StoreOptions.

Module Existence.
Record t := { s3 : bool; ipfs : bool }.
End Existence.

Module EvidenceStore.

Record t := { s3Store : option S3Store.t; ipfsStore : option IPFSStore.t }.

(** The constructor: each configured adapter is constructed, the S3 one
    first, and an exception of either construction leaves the constructor
    before the test that follows. *)
Definition new (lib : Libraries) (config : EvidenceStoreConfig.t) : settled t :=
  s3Store ← match EvidenceStoreConfig.s3 config with
             | Some s3 => Some <$> S3Store.new lib s3
             | None => fulfilled None
             end;
  ipfsStore ← match EvidenceStoreConfig.ipfs config with
               | Some ipfs => Some <$> IPFSStore.new lib ipfs
               | None => fulfilled None
               end;
  if negb (bool_decide (is_Some s3Store)) && negb (bool_decide (is_Some ipfsStore))
  then rejected (Error "At least one store (S3 or IPFS) must be configured")
  else fulfilled {| s3Store := s3Store; ipfsStore := ipfsStore |}.

Definition has_s3 (self : t) : bool := bool_decide (is_Some (s3Store self)).

Section Methods.
Context {W : Type} (env : Env W).

(** The body of the [for (const [index, settlement] of results.entries())] loop. *)
Definition collect (self : t) (result : StoreResult.t)
    (entry : nat * settled StoreResult.t) : StoreResult.t :=
  let '(index, settlement) := entry in
  match settlement with
  | fulfilled storeResult =>
      if (index =? 0)%nat && has_s3 self then
        {| StoreResult.hash := StoreResult.hash result;
           StoreResult.size := StoreResult.size result;
           StoreResult.s3Key := StoreResult.s3Key storeResult;
           StoreResult.ipfsHash := StoreResult.ipfsHash result;
           StoreResult.timestamp := StoreResult.timestamp result |}
      else if ((index =? 1)%nat && has_s3 self)
              || ((index =? 0)%nat && negb (has_s3 self)) then
        {| StoreResult.hash := StoreResult.hash result;
           StoreResult.size := StoreResult.size result;
           StoreResult.s3Key := StoreResult.s3Key result;
           StoreResult.ipfsHash := StoreResult.ipfsHash storeResult;
           StoreResult.timestamp := StoreResult.timestamp result |}
      else result
  | rejected _ => result
  end.

Definition store (self : t) (data : Data) (options : option StoreOptions.t)
  : M W StoreResult.t :=
  let buffer := Buffer (Buffer_from data) in
  metadata <- generateIntegrityMetadata env buffer ;;
  results <- allSettled (filter_Boolean
    [ (fun s3 => S3Store.store env s3 buffer (options ≫= StoreOptions.s3Key))
        <$> s3Store self;
      (fun ipfs => IPFSStore.store env ipfs buffer) <$> ipfsStore self ]) ;;
  let result :=
    {| StoreResult.hash := IntegrityMetadata.hash metadata;
       StoreResult.size := IntegrityMetadata.size metadata;
       StoreResult.s3Key := None;
       StoreResult.ipfsHash := None;
       StoreResult.timestamp := IntegrityMetadata.timestamp metadata |} in
  let result := fold_left (collect self) (entries results) result in
  let failedStores := List.filter is_rejected results in
  if (length failedStores =? length results)%nat
  then throw (Error "All storage operations failed")
  else ret result.

Definition retrieve (self : t) (source : Source.t) : M W RetrieveResult.t :=
  fromS3 <-
    match both (Source.s3Key source) (s3Store self) with
    | Some (s3Key, s3) =>
        try_catch
          (r <- S3Store.retrieve env s3 s3Key ;; ret (Some r))
          (fun error =>
             if negb (truthy (Source.ipfsHash source)) then throw error else ret None)
    | None => ret None
    end ;;
  match fromS3 with
  | Some r => ret r
  | None =>
      match both (Source.ipfsHash source) (ipfsStore self) with
      | Some (ipfsHash, ipfs) => IPFSStore.retrieve env ipfs ipfsHash
      | None => throw (Error "No valid storage source provided or available")
      end
  end.

Definition verify (data : Data) (expectedHash : string) : M W bool :=
  ret (verifyHash data expectedHash).

Definition getMetadata (self : t) (source : Source.t) : M W EvidenceMetadata.t :=
  result <- retrieve self source ;;
  let verified :=
    verifyHash (Buffer (RetrieveResult.data result))
               (IntegrityMetadata.hash (RetrieveResult.metadata result)) in
  ret {| EvidenceMetadata.hash := IntegrityMetadata.hash (RetrieveResult.metadata result);
         EvidenceMetadata.size := IntegrityMetadata.size (RetrieveResult.metadata result);
         EvidenceMetadata.timestamp :=
           IntegrityMetadata.timestamp (RetrieveResult.metadata result);
         EvidenceMetadata.s3Key := Source.s3Key source;
         EvidenceMetadata.ipfsHash := Source.ipfsHash source;
         EvidenceMetadata.verified := verified |}.

(** [status === 'fulfilled' ? value : false] on the element at [index]. *)
Definition value_or_false (results : list (settled bool)) (index : nat) : bool :=
  match results !! index with
  | Some (fulfilled value) => value
  | _ => false
  end.

Definition exists_ (self : t) (source : Source.t) : M W Existence.t :=
  results <- allSettled
    [ match both (Source.s3Key source) (s3Store self) with
      | Some (s3Key, s3) => S3Store.exists_ env s3 s3Key
      | None => ret false
      end;
      match both (Source.ipfsHash source) (ipfsStore self) with
      | Some (ipfsHash, ipfs) => IPFSStore.exists_ env ipfs ipfsHash
      | None => ret false
      end ] ;;
  ret {| Existence.s3 := value_or_false results 0;
         Existence.ipfs := value_or_false results 1 |}.

(** [getSignedUrl] of [@aws-sdk/s3-request-presigner], which this
    repository does not contain: any computation of a URL from the client,
    the command and the expiry. *)
Variable presign : S3Client.t -> ObjectRequest.t -> Z -> M W string.

Definition getSignedUrl (self : t) (s3Key : string) (expiresIn : option Z) : M W string :=
  match s3Store self with
  | None => throw (Error "S3 store not configured")
  | Some s3 => S3Store.getSignedUrl presign s3 s3Key expiresIn
  end.

Definition getIPFSGatewayUrl (self : t) (ipfsHash : string) (gateway : option string)
  : M W string :=
  match ipfsStore self with
  | None => throw (Error "IPFS store not configured")
  | Some ipfs => IPFSStore.getGatewayUrl (W := W) ipfs ipfsHash gateway
  end.

End Methods.
End EvidenceStore.

(** ** A simulated world: an in-memory bucket and IPFS node, a ticking clock

    Used to run the code on concrete inputs. Either service can be offline,
    and the bucket can hold any object, including ones whose attributes do
    not match their body. *)

Module Sim.

Record S3Object := { body : bytes; attributes : gmap string string }.

Record World := {
  time : Z;
  tick : Z;
  s3_online : bool;
  objects : gmap string S3Object;
  ipfs_online : bool;
  blocks : gmap string bytes;
  pins : gset string }.

Definition offline : ClientFailure.t :=
  {| ClientFailure.name := "NetworkingError";
     ClientFailure.message := "connect ECONNREFUSED" |}.
Definition NoSuchKey : ClientFailure.t :=
  {| ClientFailure.name := "NoSuchKey";
     ClientFailure.message := "The specified key does not exist." |}.
Definition NotFound : ClientFailure.t :=
  {| ClientFailure.name := "NotFound"; ClientFailure.message := "UnknownError" |}.
Definition no_block : ClientFailure.t :=
  {| ClientFailure.name := "HTTPError";
     ClientFailure.message := "block was not found locally" |}.
Definition not_pinned : ClientFailure.t :=
  {| ClientFailure.name := "HTTPError"; ClientFailure.message := "path is not pinned" |}.

(** The content identifier the simulated node assigns to a block. *)
Definition cid_of (content : bytes) : string :=
  "Qm" +:+ hex (SHA256.digest_bytes (map byte_val content)).

Definition set_time (w : World) (t : Z) : World :=
  {| time := t; tick := tick w; s3_online := s3_online w; objects := objects w;
     ipfs_online := ipfs_online w; blocks := blocks w; pins := pins w |}.

Definition set_objects (w : World) (o : gmap string S3Object) : World :=
  {| time := time w; tick := tick w; s3_online := s3_online w; objects := o;
     ipfs_online := ipfs_online w; blocks := blocks w; pins := pins w |}.

Definition set_ipfs (w : World) (b : gmap string bytes) (p : gset string) : World :=
  {| time := time w; tick := tick w; s3_online := s3_online w; objects := objects w;
     ipfs_online := ipfs_online w; blocks := b; pins := p |}.

Definition env : Env World :=
  {| clock w := (time w, set_time w (time w + tick w));
     PutObject _ cmd w :=
       if s3_online w then
         (ok tt,
          set_objects w (<[PutObjectCommand.Key cmd :=
                           {| body := PutObjectCommand.Body cmd;
                              attributes := PutObjectCommand.Metadata cmd |}]> (objects w)))
       else (failed offline, w);
     GetObject _ cmd w :=
       if s3_online w then
         match objects w !! ObjectRequest.Key cmd with
         | Some o => (ok {| GetObjectOutput.Body := Some (ok (body o));
                                   GetObjectOutput.Metadata := Some (attributes o) |}, w)
         | None => (failed NoSuchKey, w)
         end
       else (failed offline, w);
     HeadObject _ cmd w :=
       if s3_online w then
         match objects w !! ObjectRequest.Key cmd with
         | Some _ => (ok tt, w)
         | None => (failed NotFound, w)
         end
       else (failed offline, w);
     add _ content pin _ w :=
       if ipfs_online w then
         (ok (cid_of content),
          set_ipfs w (<[cid_of content := content]> (blocks w))
                     (if pin then {[cid_of content]} ∪ pins w else pins w))
       else (failed offline, w);
     cat _ path _ w :=
       if ipfs_online w then
         match blocks w !! path with
         | Some b => ({| Iterated.yielded := [b]; Iterated.failure := None |}, w)
         | None => ({| Iterated.yielded := []; Iterated.failure := Some no_block |}, w)
         end
       else ({| Iterated.yielded := []; Iterated.failure := Some offline |}, w);
     pin_ls _ paths w :=
       if ipfs_online w then
         if forallb (fun p => bool_decide (p ∈ pins w)) paths
         then ({| Iterated.yielded := paths; Iterated.failure := None |}, w)
         else ({| Iterated.yielded := []; Iterated.failure := Some not_pinned |}, w)
       else ({| Iterated.yielded := []; Iterated.failure := Some offline |}, w) |}.

(** An empty bucket and node, both online; the clock starts at the epoch
    and advances one millisecond at every reading. *)
Definition fresh : World :=
  {| time := 0; tick := 1; s3_online := true; objects := ∅;
     ipfs_online := true; blocks := ∅; pins := ∅ |}.

Definition s3_config : S3Config.t :=
  {| S3Config.endpoint := "https://s3.amazonaws.com"; S3Config.region := "us-east-1";
     S3Config.accessKeyId := "test-key"; S3Config.secretAccessKey := "test-secret";
     S3Config.bucket := "test-bucket"; S3Config.objectLockEnabled := None |}.

Definition ipfs_config : IPFSConfig.t :=
  {| IPFSConfig.endpoint := "http://localhost:5001"; IPFSConfig.timeout := None |}.

(** The adapters that the constructors build from these configurations. *)
Definition s3_store : S3Store.t :=
  {| S3Store.client :=
       {| S3Client.endpoint := "https://s3.amazonaws.com"; S3Client.region := "us-east-1";
          S3Client.accessKeyId := "test-key"; S3Client.secretAccessKey := "test-secret" |};
     S3Store.bucket := "test-bucket";
     S3Store.objectLockEnabled := false |}.

Definition ipfs_store : IPFSStore.t :=
  {| IPFSStore.client :=
       {| IPFSClient.url := "http://localhost:5001";
          IPFSClient.timeout := Number_of_Z 30000 |};
     IPFSStore.timeout := Number_of_Z 30000 |}.

Definition both_stores : EvidenceStore.t :=
  {| EvidenceStore.s3Store := Some s3_store;
     EvidenceStore.ipfsStore := Some ipfs_store |}.
Definition s3_only : EvidenceStore.t :=
  {| EvidenceStore.s3Store := Some s3_store;
     EvidenceStore.ipfsStore := None |}.
Definition ipfs_only : EvidenceStore.t :=
  {| EvidenceStore.s3Store := None;
     EvidenceStore.ipfsStore := Some ipfs_store |}.

(** The simulated libraries. [new S3Client] throws on an empty region, as
    the AWS SDK does; [createIPFS] throws on an endpoint that does not
    begin with a URL scheme, as [new URL] does. *)
Definition region_missing : ClientFailure.t :=
  {| ClientFailure.name := "Error"; ClientFailure.message := "Region is missing" |}.
Definition invalid_url : ClientFailure.t :=
  {| ClientFailure.name := "TypeError"; ClientFailure.message := "Invalid URL" |}.

Definition is_alpha (c : ascii) : bool :=
  let n := nat_of_ascii c in
  ((65 <=? n) && (n <=? 90) || (97 <=? n) && (n <=? 122))%nat.

Definition is_scheme_char (c : ascii) : bool :=
  let n := nat_of_ascii c in
  (is_alpha c || (48 <=? n) && (n <=? 57) || (n =? 43) || (n =? 45) || (n =? 46))%nat.

(** Scheme characters up to a colon. *)
Fixpoint scheme_ends (s : string) : bool :=
  match s with
  | EmptyString => false
  | String c rest => Ascii.eqb c ":" || is_scheme_char c && scheme_ends rest
  end.

Definition has_scheme (url : string) : bool :=
  match url with
  | EmptyString => false
  | String c rest => is_alpha c && scheme_ends rest
  end.

(** Configurations that name a backend whose client cannot be built. *)
Definition no_region : EvidenceStoreConfig.t :=
  {| EvidenceStoreConfig.s3 :=
       Some {| S3Config.endpoint := "https://s3.amazonaws.com"; S3Config.region := "";
               S3Config.accessKeyId := "test-key"; S3Config.secretAccessKey := "test-secret";
               S3Config.bucket := "test-bucket"; S3Config.objectLockEnabled := None |};
     EvidenceStoreConfig.ipfs := None |}.

Definition no_url : EvidenceStoreConfig.t :=
  {| EvidenceStoreConfig.s3 := None;
     EvidenceStoreConfig.ipfs :=
       Some {| IPFSConfig.endpoint := "not a url"; IPFSConfig.timeout := None |} |}.

(** What [parseInt] makes of a timeout that is no number. *)
Definition nan_timeout : IPFSConfig.t :=
  {| IPFSConfig.endpoint := "http://localhost:5001";
     IPFSConfig.timeout := Some SpecFloat.S754_nan |}.

Definition libraries : Libraries :=
  {| S3Client_throws options :=
       if String.eqb (S3Client.region options) "" then Some region_missing else None;
     createIPFS_throws options :=
       if has_scheme (IPFSClient.url options) then None else Some invalid_url |}.

Definition hello : bytes := list_byte_of_string "hello world".

(** A bucket whose only object carries a [content-hash] that is not the
    hash of its body. *)
Definition tampered : World :=
  set_objects fresh
    {[ "evidence/tampered" :=
         {| body := hello;
            attributes :=
              {[ "content-hash" :=
                   "0x1234567890abcdef1234567890abcdef1234567890abcdef1234567890abcdef" ]} |} ]}.

(** A bucket whose only object carries no attributes at all. *)
Definition legacy : World :=
  set_objects fresh {[ "evidence/legacy" := {| body := hello; attributes := ∅ |} ]}.

(** An empty bucket beside a node that holds and pins [content]. *)
Definition pinned (content : bytes) : World :=
  set_ipfs fresh {[ cid_of content := content ]} {[ cid_of content ]}.

End Sim.

(** ** Observations on traces *)

(** The events of a trace selected by [f], in order. *)
Fixpoint pick {A} (f : event -> option A) (tr : list event) : list A :=
  match tr with
  | [] => []
  | ev :: rest =>
      match f ev with
      | Some a => a :: pick f rest
      | None => pick f rest
      end
  end.

(** Whether a backend write (an S3 [PutObject] or an IPFS [add]) succeeded. *)
Definition write_outcome (ev : event) : option bool :=
  match ev with
  | EvPutObject _ _ r => Some (is_ok r)
  | EvAdd _ _ _ _ r => Some (is_ok r)
  | _ => None
  end.

(** The outcomes of the backend writes issued, one per write. *)
Definition writes (tr : list event) : list bool := pick write_outcome tr.

(** The key of a successful [PutObject]. *)
Definition put_key (ev : event) : option string :=
  match ev with
  | EvPutObject _ cmd (ok _) => Some (PutObjectCommand.Key cmd)
  | _ => None
  end.

(** The content identifier returned by a successful [add]. *)
Definition added_cid (ev : event) : option string :=
  match ev with
  | EvAdd _ _ _ _ (ok cid) => Some cid
  | _ => None
  end.

Definition put_command (ev : event) : option PutObjectCommand.t :=
  match ev with
  | EvPutObject _ cmd _ => Some cmd
  | _ => None
  end.

Definition added_content (ev : event) : option bytes :=
  match ev with
  | EvAdd _ content _ _ _ => Some content
  | _ => None
  end.

Definition clock_reading (ev : event) : option Z :=
  match ev with
  | EvClock t => Some t
  | _ => None
  end.

(** A [HeadObject] probe that found the object. *)
Definition head_found (ev : event) : option string :=
  match ev with
  | EvHeadObject _ cmd (ok _) => Some (ObjectRequest.Key cmd)
  | _ => None
  end.

(** A [pin.ls] probe whose first result is the path asked for. *)
Definition pin_found (ev : event) : option string :=
  match ev with
  | EvPinLs _ [path] results =>
      match Iterated.yielded results with
      | cid :: _ => if String.eqb cid path then Some path else None
      | [] => None
      end
  | _ => None
  end.

(** A [cat] of a path, whatever its outcome. *)
Definition cat_path (ev : event) : option string :=
  match ev with
  | EvCat _ path _ _ => Some path
  | _ => None
  end.

(** The attributes [S3Store.store] attaches to an object of content
    [buffer] when its own clock reading is [t]. *)
Definition s3_metadata (buffer : bytes) (t : Z) : gmap string string :=
  <["content-hash" := sha256 (Buffer buffer)]>
  (<["content-size" := Number_toString (Z.of_nat (length buffer))]>
  (<["upload-timestamp" := toISOString t]> ∅)).

(** A [HeadObject] probe, whatever its outcome. *)
Definition head_probe (ev : event) : option ObjectRequest.t :=
  match ev with
  | EvHeadObject _ cmd _ => Some cmd
  | _ => None
  end.

(** A [pin.ls] probe, whatever its outcome. *)
Definition pin_probe (ev : event) : option (list string) :=
  match ev with
  | EvPinLs _ paths _ => Some paths
  | _ => None
  end.

(** A [GetObject], whatever its outcome. *)
Definition get_request (ev : event) : option ObjectRequest.t :=
  match ev with
  | EvGetObject _ cmd _ => Some cmd
  | _ => None
  end.

(** The [pin] flag and the timeout given to an [add]. *)
Definition add_options (ev : event) : option (bool * number) :=
  match ev with
  | EvAdd _ _ pin timeout _ => Some (pin, timeout)
  | _ => None
  end.

(** The request [S3Store] sends to read or probe [key]. *)
Definition s3_request (self : S3Store.t) (key : string) : ObjectRequest.t :=
  {| ObjectRequest.Bucket := S3Store.bucket self; ObjectRequest.Key := key |}.

(** [response.Metadata?.['content-hash']] *)
Definition stored_hash (response : GetObjectOutput.t) : option string :=
  GetObjectOutput.Metadata response ≫= (.!! "content-hash").

Fixpoint string_forallb (p : ascii -> bool) (s : string) : bool :=
  match s with
  | EmptyString => true
  | String c rest => p c && string_forallb p rest
  end.

Arguments S3Store.store : simpl never.
Arguments S3Store.retrieve : simpl never.
Arguments S3Store.exists_ : simpl never.
Arguments IPFSStore.store : simpl never.
Arguments IPFSStore.retrieve : simpl never.
Arguments IPFSStore.exists_ : simpl never.

(** * Properties *)

(** ** Known digests and dates *)

Example sha256_abc :
  sha256 (Text "abc") = "0xba7816bf8f01cfea414140de5dae2223b00361a396177a9cb410ff61f20015ad".
Proof. vm_compute. reflexivity. Qed.

Example sha256_two_blocks :
  sha256 (Text "abcdbcdecdefdefgefghfghighijhijkijkljklmklmnlmnomnopnopq")
  = "0x248d6a61d20638b8e5c026930c3e6039a33ce45964ff2167f6ecedd419db06c1".
Proof. vm_compute. reflexivity. Qed.

Example verifyHash_rejects_wrong_hash :
  verifyHash (Text "hello world")
    "0x1234567890abcdef1234567890abcdef1234567890abcdef1234567890abcdef" = false.
Proof. vm_compute. reflexivity. Qed.

Example toISOString_2024 : toISOString 1704067200000 = "2024-01-01T00:00:00.000Z".
Proof. reflexivity. Qed.

Example toISOString_leap_day : toISOString 1709251199999 = "2024-02-29T23:59:59.999Z".
Proof. reflexivity. Qed.

(** ** The hash module *)

Lemma hex_length bs : String.length (hex bs) = (2 * length bs)%nat.
Proof. induction bs as [|b bs IH]; simpl; [reflexivity | rewrite IH; lia]. Qed.

Lemma be_bytes_length n x : length (SHA256.be_bytes n x) = n.
Proof. unfold SHA256.be_bytes. rewrite length_map, length_rev, length_seq. reflexivity. Qed.

Lemma digest_bytes_length msg : length (SHA256.digest_bytes msg) = 32%nat.
Proof.
  unfold SHA256.digest_bytes, SHA256.state_words. cbn [map concat].
  rewrite !length_app, !be_bytes_length. reflexivity.
Qed.

Lemma hex_digit_lower d : is_lower_hex (hex_digit d) = true.
Proof.
  unfold hex_digit. generalize (Z.to_nat d). intros n.
  do 16 (destruct n as [|n]; [reflexivity|]). reflexivity.
Qed.

Lemma hex_lower bs : string_forallb is_lower_hex (hex bs) = true.
Proof.
  induction bs as [|b bs IH]; simpl; [reflexivity|].
  rewrite !hex_digit_lower, IH. reflexivity.
Qed.

(** The padded message is a whole number of 64-byte blocks, so [absorb]
    consumes all of it. *)
Lemma pad_length msg : (Z.of_nat (length (SHA256.pad msg)) mod 64 = 0)%Z.
Proof.
  unfold SHA256.pad. rewrite !length_app, repeat_length, be_bytes_length. cbn [length].
  set (n := Z.of_nat (length msg)).
  assert (0 <= (55 - n) mod 64 < 64) by (apply Z.mod_pos_bound; lia).
  replace (Z.of_nat (length msg + (1 + (Z.to_nat ((55 - n) mod 64) + 8))))
    with (n + 9 + (55 - n) mod 64) by (subst n; lia).
  rewrite Z.add_mod_idemp_r by lia. replace (n + 9 + (55 - n)) with (1 * 64) by lia.
  apply Z.mod_mul. lia.
Qed.

Lemma sha256_shape input :
  exists digits, sha256 input = String "0" (String "x" digits)
    /\ String.length digits = 64%nat /\ string_forallb is_lower_hex digits = true.
Proof.
  eexists. split; [reflexivity|]. split.
  - rewrite hex_length, digest_bytes_length. reflexivity.
  - apply hex_lower.
Qed.

Lemma verifyHash_iff data h : verifyHash data h = true <-> h = sha256 data.
Proof. unfold verifyHash. rewrite String.eqb_eq. split; congruence. Qed.

Lemma verifyHash_false data h : verifyHash data h = false <-> h <> sha256 data.
Proof. rewrite <- verifyHash_iff. destruct (verifyHash data h); split; congruence. Qed.

(** C6. [sha256] is a total function of the input bytes alone (it takes no
    world and a string is hashed as its UTF-8 bytes); its value is always
    ["0x"] followed by 64 lowercase hexadecimal digits; the digest of
    ["hello world"] is 0xb94d...cde9 with size 11 and the digest of the empty
    byte sequence is 0xe3b0...b855 with size 0. *)
Theorem sha256_fixed_format_and_known_digests :
  (forall input, sha256 input = sha256 (Buffer (Buffer_from input)))
  /\ (forall input, exists digits,
        sha256 input = String "0" (String "x" digits)
        /\ String.length digits = 64%nat
        /\ string_forallb is_lower_hex digits = true)
  /\ sha256 (Buffer (list_byte_of_string "hello world"))
     = "0xb94d27b9934d3e08a52e52d7da7dabfac484efe37a5380ee9088f7ace2efcde9"
  /\ sha256 (Buffer [])
     = "0xe3b0c44298fc1c149afbf4c8996fb92427ae41e4649b934ca495991b7852b855"
  /\ (forall W (env : Env W) (s : machine W),
        IntegrityMetadata.size
          <$> fst (generateIntegrityMetadata env (Buffer (list_byte_of_string "hello world")) s)
          = fulfilled 11
        /\ IntegrityMetadata.size <$> fst (generateIntegrityMetadata env (Buffer []) s)
           = fulfilled 0).
Proof.
  split; [intros [s|b]; reflexivity|].
  split; [apply sha256_shape|].
  split; [vm_compute; reflexivity|].
  split; [vm_compute; reflexivity|].
  intros W env s.
  unfold generateIntegrityMetadata, Date_toISOString, Date_now, call, record, bind, ret.
  destruct (clock env (world s)) as [t w']. split; reflexivity.
Qed.

(** C7. [verifyHash b (sha256 b)] is true for every input, and for every
    string other than [sha256 b], well-formed or not, [verifyHash] is false;
    being a plain comparison of strings it cannot raise, and
    [EvidenceStore.verify] always fulfils with its value. *)
Theorem verifyHash_accepts_exactly_the_digest :
  (forall data, verifyHash data (sha256 data) = true)
  /\ (forall data expectedHash,
        expectedHash <> sha256 data -> verifyHash data expectedHash = false)
  /\ (forall W (env : Env W) data expectedHash (s : machine W),
        EvidenceStore.verify (W := W) data expectedHash s
        = (fulfilled (verifyHash data expectedHash), s)).
Proof.
  split; [intros data; apply verifyHash_iff; reflexivity|].
  split; [intros data h Hne; apply verifyHash_false; exact Hne|].
  reflexivity.
Qed.

Lemma verifyHash_malformed_witness :
  verifyHash (Buffer (list_byte_of_string "hello world")) "not a hash" = false
  /\ verifyHash (Buffer (list_byte_of_string "hello world"))
       "0XB94D27B9934D3E08A52E52D7DA7DABFAC484EFE37A5380EE9088F7ACE2EFCDE9" = false
  /\ verifyHash (Buffer []) "" = false.
Proof.
  split; [|split];
    apply (proj1 (proj2 verifyHash_accepts_exactly_the_digest));
    vm_compute; discriminate.
Defined.

(** ** Construction *)

(** C9. The constructor throws the configuration error, with the message
    "At least one store (S3 or IPFS) must be configured", exactly when
    neither backend is configured. With a backend configured it succeeds
    exactly when the construction of every configured adapter returns, and
    the store then holds these adapters; otherwise it throws what the
    construction of the S3 adapter throws or, when that one is absent or
    returns, what the construction of the IPFS adapter throws. An adapter's
    construction throws only the exception of its client library, which is
    not the configuration error. *)
Theorem constructor_requires_a_backend (lib : Libraries) (config : EvidenceStoreConfig.t) :
  let s3 := EvidenceStoreConfig.s3 config in
  let ipfs := EvidenceStoreConfig.ipfs config in
  (EvidenceStore.new lib config = rejected ConfigurationError <-> s3 = None /\ ipfs = None)
  /\ (forall store,
        EvidenceStore.new lib config = fulfilled store
        <-> (is_Some s3 \/ is_Some ipfs)
            /\ S3Store.new lib <$> s3 = fulfilled <$> EvidenceStore.s3Store store
            /\ IPFSStore.new lib <$> ipfs = fulfilled <$> EvidenceStore.ipfsStore store)
  /\ (forall e,
        EvidenceStore.new lib config = rejected e
        <-> (s3 = None /\ ipfs = None /\ e = ConfigurationError)
            \/ (exists c, s3 = Some c /\ S3Store.new lib c = rejected e)
            \/ ((forall c, s3 = Some c -> is_fulfilled (S3Store.new lib c) = true)
                /\ exists c, ipfs = Some c /\ IPFSStore.new lib c = rejected e))
  /\ (forall c e, S3Store.new lib c = rejected e -> exists failure, e = ClientError failure)
  /\ (forall c e, IPFSStore.new lib c = rejected e -> exists failure, e = ClientError failure).
Proof.
  cbv zeta.
  assert (Hs3 : forall c e, S3Store.new lib c = rejected e ->
                            exists failure, e = ClientError failure).
  { intros c e. unfold S3Store.new, S3Client_new, construct.
    destruct (S3Client_throws lib _); cbn; [|discriminate].
    intros [= <-]. eauto. }
  assert (Hipfs : forall c e, IPFSStore.new lib c = rejected e ->
                              exists failure, e = ClientError failure).
  { intros c e. unfold IPFSStore.new, createIPFS, construct.
    destruct (createIPFS_throws lib _); cbn; [|discriminate].
    intros [= <-]. eauto. }
  assert (Hnew : forall e, EvidenceStore.new lib config = rejected e
            <-> (EvidenceStoreConfig.s3 config = None /\ EvidenceStoreConfig.ipfs config = None
                 /\ e = ConfigurationError)
                \/ (exists c, EvidenceStoreConfig.s3 config = Some c
                               /\ S3Store.new lib c = rejected e)
                \/ ((forall c, EvidenceStoreConfig.s3 config = Some c ->
                                is_fulfilled (S3Store.new lib c) = true)
                    /\ exists c, EvidenceStoreConfig.ipfs config = Some c
                                  /\ IPFSStore.new lib c = rejected e)).
  { intros e. unfold EvidenceStore.new, ConfigurationError.
    destruct (EvidenceStoreConfig.s3 config) as [c1|];
      [destruct (S3Store.new lib c1) as [a1|e1] eqn:E1|];
      (destruct (EvidenceStoreConfig.ipfs config) as [c2|];
       [destruct (IPFSStore.new lib c2) as [a2|e2] eqn:E2|]); cbn.
    all: (split;
      [ intros H
      | intros [(H1 & H2 & H3) | [(c & H1 & H2) | (H1 & c & H2 & H3)]] ]).
    all: repeat match goal with
      | H : Some _ = None |- _ => discriminate H
      | H : None = Some _ |- _ => discriminate H
      | H : fulfilled _ = rejected _ |- _ => discriminate H
      | H : Some ?a = Some ?b |- _ => injection H as H; subst b
      | H : rejected ?a = rejected ?b |- _ => injection H as H; subst b
      | H : forall c, Some ?a = Some c -> _ |- _ => specialize (H a eq_refl)
      end.
    all: try (rewrite E1 in *); try (rewrite E2 in *).
    all: try discriminate; try congruence.
    all: first
      [ left; solve [auto]
      | right; left; solve [eauto]
      | right; right; split; [|solve [eauto]];
        first [ intros ? [= <-]; rewrite E1; reflexivity | intros ? [=] ] ]. }
  split.
  { rewrite Hnew. split.
    - intros [(H1 & H2 & _) | [(c & _ & H) | (_ & c & _ & H)]]; [auto| |].
      + destruct (Hs3 _ _ H) as (failure & Hf). discriminate Hf.
      + destruct (Hipfs _ _ H) as (failure & Hf). discriminate Hf.
    - intros (H1 & H2). left. auto. }
  split; [|split; [exact Hnew|split; [exact Hs3|exact Hipfs]]].
  intros store. unfold EvidenceStore.new.
  destruct (EvidenceStoreConfig.s3 config) as [c1|];
    [destruct (S3Store.new lib c1) as [a1|e1] eqn:E1|];
    (destruct (EvidenceStoreConfig.ipfs config) as [c2|];
     [destruct (IPFSStore.new lib c2) as [a2|e2] eqn:E2|]); cbn.
  all: rewrite ?E1, ?E2.
  all: split; [intros H; try discriminate H | intros (H0 & H1 & H2)].
  all: try (injection H as <-; cbn; split; [eauto|split; reflexivity]).
  all: destruct store as [[s|] [i|]]; cbn in H1, H2; try discriminate.
  all: try (injection H1 as <-); try (injection H2 as <-); try reflexivity.
  destruct H0 as [[? [=]]|[? [=]]].
Qed.

Example constructor_no_backend (lib : Libraries) :
  EvidenceStore.new lib {| EvidenceStoreConfig.s3 := None; EvidenceStoreConfig.ipfs := None |}
  = rejected (Error "At least one store (S3 or IPFS) must be configured").
Proof. reflexivity. Qed.

Example constructor_s3_only :
  EvidenceStore.new Sim.libraries {| EvidenceStoreConfig.s3 := Some Sim.s3_config;
                                     EvidenceStoreConfig.ipfs := None |}
  = fulfilled Sim.s3_only.
Proof. reflexivity. Qed.

Example constructor_both :
  EvidenceStore.new Sim.libraries {| EvidenceStoreConfig.s3 := Some Sim.s3_config;
                                     EvidenceStoreConfig.ipfs := Some Sim.ipfs_config |}
  = fulfilled Sim.both_stores.
Proof. reflexivity. Qed.

(** The adapters of the simulated world are the ones the constructors build. *)
Example S3Store_new_s3_config :
  S3Store.new Sim.libraries Sim.s3_config = fulfilled Sim.s3_store.
Proof. reflexivity. Qed.

Example IPFSStore_new_ipfs_config :
  IPFSStore.new Sim.libraries Sim.ipfs_config = fulfilled Sim.ipfs_store.
Proof. reflexivity. Qed.

(** A configuration that names a backend and on which the constructor
    throws: the exception of [new S3Client] on an empty region, and that of
    [createIPFS] on an endpoint that is no URL, leave the constructor. *)
Lemma constructor_throws_library_exception :
  is_Some (EvidenceStoreConfig.s3 Sim.no_region)
  /\ EvidenceStore.new Sim.libraries Sim.no_region = rejected (ClientError Sim.region_missing)
  /\ is_Some (EvidenceStoreConfig.ipfs Sim.no_url)
  /\ EvidenceStore.new Sim.libraries Sim.no_url = rejected (ClientError Sim.invalid_url)
  /\ ClientError Sim.region_missing <> ConfigurationError
  /\ ClientError Sim.invalid_url <> ConfigurationError.
Proof.
  split; [eexists; reflexivity|]. split; [reflexivity|].
  split; [eexists; reflexivity|]. split; [reflexivity|].
  split; discriminate.
Qed.

(** ** Numbers *)

Example Number_of_Z_30000 :
  Number_of_Z 30000 = SpecFloat.S754_finite false 8246337208320000 (-38).
Proof. reflexivity. Qed.

Lemma Number_truthy_false (x : number) :
  Number_truthy x = false <-> x = SpecFloat.S754_nan \/ exists s, x = SpecFloat.S754_zero s.
Proof.
  destruct x; cbn; split; try discriminate; eauto.
  - intros [H|(? & H)]; discriminate H.
  - intros [H|(? & H)]; discriminate H.
Qed.

(** ** Traces *)

Lemma pick_app {A} (f : event -> option A) tr1 tr2 :
  pick f (tr1 ++ tr2) = pick f tr1 ++ pick f tr2.
Proof.
  induction tr1 as [|ev tr1 IH]; cbn; [reflexivity|].
  destruct (f ev); cbn; congruence.
Qed.

Lemma pick_clocks {A} (f : event -> option A) clocks :
  (forall t, f (EvClock t) = None) -> pick f (map EvClock clocks) = [].
Proof.
  intros Hf. induction clocks as [|t l IH]; cbn; [reflexivity|].
  rewrite Hf. exact IH.
Qed.

Lemma pick_clock_readings clocks : pick clock_reading (map EvClock clocks) = clocks.
Proof. induction clocks as [|t l IH]; cbn; congruence. Qed.

(** ** Writing: the two adapters, then the orchestrator *)

Section Store.
Context {W : Type} (env : Env W).

Lemma generateIntegrityMetadata_run data s :
  generateIntegrityMetadata env data s =
    (fulfilled
       {| IntegrityMetadata.hash := sha256 data;
          IntegrityMetadata.size :=
            match data with
            | Buffer b => Z.of_nat (length b)
            | Text t => Buffer_byteLength t
            end;
          IntegrityMetadata.timestamp := toISOString (fst (clock env (world s))) |},
     Machine (snd (clock env (world s))) (trace s ++ [EvClock (fst (clock env (world s)))])).
Proof.
  unfold generateIntegrityMetadata, Date_toISOString, Date_now, call, record, bind, ret.
  destruct (clock env (world s)) as [t w']. reflexivity.
Qed.

(** [S3Store.store] reads the clock itself, sends one [PutObject] whose
    attributes carry that reading, and succeeds exactly when the put does. *)
Lemma S3Store_store_run self data key s :
  exists clocks cmd r w',
    PutObjectCommand.Body cmd = Buffer_from data
    /\ PutObjectCommand.Key cmd =
         match key with
         | Some k => k
         | None => "evidence/" +:+ slice 2 (sha256 (Buffer (Buffer_from data)))
         end
    /\ PutObjectCommand.Metadata cmd
         = s3_metadata (Buffer_from data) (fst (clock env (world s)))
    /\ S3Store.store env self data key s =
         (match r with
          | ok _ =>
              fulfilled
                {| StoreResult.hash := sha256 (Buffer (Buffer_from data));
                   StoreResult.size := Z.of_nat (length (Buffer_from data));
                   StoreResult.s3Key := Some (PutObjectCommand.Key cmd);
                   StoreResult.ipfsHash := None;
                   StoreResult.timestamp := toISOString (fst (clock env (world s))) |}
          | failed f => rejected (ClientError f)
          end,
          Machine w' (trace s ++ EvClock (fst (clock env (world s))) :: map EvClock clocks
                        ++ [EvPutObject (S3Store.client self) cmd r])).
Proof.
  unfold S3Store.store. unfold bind at 1. rewrite generateIntegrityMetadata_run.
  cbn [IntegrityMetadata.hash IntegrityMetadata.size IntegrityMetadata.timestamp].
  destruct (clock env (world s)) as [t w1]; cbn [fst snd].
  destruct (S3Store.objectLockEnabled self);
    cbv [bind ret send_PutObject Date_now call record await throw world trace].
  - destruct (clock env w1) as [t' w2].
    match goal with |- context [PutObject env ?c ?cmd ?w] =>
      exists [t'], cmd, (fst (PutObject env c cmd w)), (snd (PutObject env c cmd w));
      destruct (PutObject env c cmd w) as [[[]|f] w3] end;
    cbn; rewrite <- ?app_assoc; auto.
  - match goal with |- context [PutObject env ?c ?cmd ?w] =>
      exists [], cmd, (fst (PutObject env c cmd w)), (snd (PutObject env c cmd w));
      destruct (PutObject env c cmd w) as [[[]|f] w3] end;
    cbn; rewrite <- ?app_assoc; auto.
Qed.

(** [IPFSStore.store] reads the clock itself, adds the bytes, pinned, and
    succeeds exactly when the add does. *)
Lemma IPFSStore_store_run self data s :
  exists r w',
    IPFSStore.store env self data s =
      (match r with
       | ok cid =>
           fulfilled
             {| StoreResult.hash := sha256 (Buffer (Buffer_from data));
                StoreResult.size := Z.of_nat (length (Buffer_from data));
                StoreResult.s3Key := None;
                StoreResult.ipfsHash := Some cid;
                StoreResult.timestamp := toISOString (fst (clock env (world s))) |}
       | failed f => rejected (ClientError f)
       end,
       Machine w' (trace s ++ [EvClock (fst (clock env (world s)));
                               EvAdd (IPFSStore.client self) (Buffer_from data) true
                                     (IPFSStore.timeout self) r])).
Proof.
  unfold IPFSStore.store. unfold bind at 1. rewrite generateIntegrityMetadata_run.
  cbn [IntegrityMetadata.hash IntegrityMetadata.size IntegrityMetadata.timestamp].
  destruct (clock env (world s)) as [t w1]; cbn [fst snd].
  cbv [bind ret client_add call record await throw world trace].
  match goal with |- context [add env ?c ?b ?p ?t ?w] =>
    exists (fst (add env c b p t w)), (snd (add env c b p t w));
    destruct (add env c b p t w) as [[cid|f] w2] end;
  cbn; rewrite <- ?app_assoc; auto.
Qed.

(** Replaces a backend write in the goal by its outcome, one case per outcome. *)
Ltac backend_store :=
  match goal with
  | |- context [S3Store.store env ?a ?b ?c ?s] =>
      let r := fresh "r" in
      destruct (S3Store_store_run a b c s) as (? & ? & r & ? & ? & ? & ? & ->);
      destruct r as [[]|?]
  | |- context [IPFSStore.store env ?a ?b ?s] =>
      let r := fresh "r" in
      destruct (IPFSStore_store_run a b s) as (r & ? & ->);
      destruct r as [?|?]
  end.

(** Runs [EvidenceStore.store] symbolically in each configuration and for
    each outcome of the writes issued. *)
Ltac run_store self w :=
  unfold run, EvidenceStore.store, writes; unfold bind at 1;
  rewrite generateIntegrityMetadata_run; cbn [world trace app];
  destruct (clock env w) as [? ?]; cbn [fst snd];
  destruct self as [[?|] [?|]];
  cbv [fmap option_fmap option_map filter_Boolean omap list_omap id EvidenceStore.s3Store
       EvidenceStore.ipfsStore allSettled settle bind ret];
  repeat (backend_store; cbn [world trace fst snd]);
  cbn.

(** C1. In every configuration, [store] throws "All storage operations
    failed" exactly when every write it issued failed; as soon as one write
    succeeded it returns a result, whose [s3Key] is the key of the successful
    [PutObject] (absent if there is none) and whose [ipfsHash] is the
    identifier returned by the successful [add] (absent if there is none),
    also when a single backend is configured. One write is issued per
    configured backend. *)
Theorem store_tolerates_partial_failure (self : EvidenceStore.t) data options (w : W) :
  let '(r, s') := run (EvidenceStore.store env self data options) w in
  (r = rejected AllBackendsFailedError <-> forallb negb (writes (trace s')) = true)
  /\ ((exists e, r = rejected e) <-> forallb negb (writes (trace s')) = true)
  /\ (existsb id (writes (trace s')) = true <-> exists result, r = fulfilled result)
  /\ (forall result, r = fulfilled result ->
        StoreResult.s3Key result = head (pick put_key (trace s'))
        /\ StoreResult.ipfsHash result = head (pick added_cid (trace s')))
  /\ length (pick put_command (trace s'))
     = match EvidenceStore.s3Store self with Some _ => 1%nat | None => 0%nat end
  /\ length (pick added_content (trace s'))
     = match EvidenceStore.ipfsStore self with Some _ => 1%nat | None => 0%nat end.
Proof.
  run_store self w.
  all: rewrite ?pick_app, ?pick_clocks by reflexivity; cbn.
  all: unfold AllBackendsFailedError.
  all: repeat match goal with
         | |- _ /\ _ => split
         | |- _ <-> _ => split
         | |- _ -> _ => intros ?
         | H : ex _ |- _ => destruct H
         | H : fulfilled _ = fulfilled _ |- _ => injection H as <-
         end; try discriminate; try reflexivity; eauto.
Qed.

(** C2, as the code has it. [store] computes its own integrity metadata
    first, before any backend call, and the result returned carries that
    hash, size and timestamp. The metadata is not handed to the adapters:
    [S3Store.store] recomputes it from the same bytes, so the hash and size
    it attaches to the object are those of the result, while the
    upload timestamp it attaches is its own, second, reading of the clock;
    [IPFSStore.store] sends the bytes alone. *)
Theorem store_backends_recompute_metadata (self : EvidenceStore.t) data options (w : W) :
  let '(r, s') := run (EvidenceStore.store env self data options) w in
  head (trace s') = Some (EvClock (fst (clock env w)))
  /\ (forall result, r = fulfilled result ->
        StoreResult.hash result = sha256 (Buffer (Buffer_from data))
        /\ StoreResult.size result = Z.of_nat (length (Buffer_from data))
        /\ StoreResult.timestamp result = toISOString (fst (clock env w)))
  /\ (forall cmd, In cmd (pick put_command (trace s')) ->
        PutObjectCommand.Body cmd = Buffer_from data
        /\ exists t1, pick clock_reading (trace s') !! 1%nat = Some t1
             /\ PutObjectCommand.Metadata cmd = s3_metadata (Buffer_from data) t1)
  /\ (forall content, In content (pick added_content (trace s')) ->
        content = Buffer_from data).
Proof.
  run_store self w.
  all: rewrite ?pick_app, ?pick_clocks by reflexivity; cbn.
  all: repeat match goal with
         | |- _ /\ _ => split
         | |- _ -> _ => intros ?
         | H : _ \/ _ |- _ => destruct H
         | H : False |- _ => destruct H
         | H : fulfilled _ = fulfilled _ |- _ => injection H as <-
         end; subst; try discriminate; try reflexivity; eauto.
Qed.

End Store.

(** ** Reading, metadata and existence *)

Section Retrieve.
Context {W : Type} (env : Env W).

Lemma truthy_Some h : truthy (Some h) = true <-> h <> "".
Proof.
  unfold truthy. destruct (String.eqb_spec h ""); cbn; split; congruence.
Qed.

Lemma S3Store_retrieve_run self key s :
  exists ts s',
    S3Store.retrieve env self key s =
      (match fst (GetObject env (S3Store.client self) (s3_request self key) (world s)) with
       | failed f => rejected (ClientError f)
       | ok response =>
           match GetObjectOutput.Body response with
           | None => rejected (NotFoundError key)
           | Some (failed f) => rejected (ClientError f)
           | Some (ok data) =>
               if truthy (stored_hash response)
                  && negb (verifyHash (Buffer data) (default "" (stored_hash response)))
               then rejected (IntegrityError key)
               else fulfilled
                      {| RetrieveResult.data := data;
                         RetrieveResult.metadata :=
                           {| IntegrityMetadata.hash := sha256 (Buffer data);
                              IntegrityMetadata.size := Z.of_nat (length data);
                              IntegrityMetadata.timestamp := ts |} |}
           end
       end, s').
Proof.
  unfold S3Store.retrieve, s3_request, stored_hash.
  cbv [bind ret send_GetObject call record await throw transformToByteArray].
  destruct (GetObject env _ _ (world s)) as [[response|f] w1]; cbn [fst snd];
    [|eexists EmptyString, _; reflexivity].
  destruct (GetObjectOutput.Body response) as [[data|f]|];
    [|eexists EmptyString, _; reflexivity..].
  assert (Hts : forall (m : machine W), exists ts m',
             or_else (GetObjectOutput.Metadata response ≫= (.!! "upload-timestamp"))
                     (Date_toISOString env) m = (fulfilled ts, m')).
  { intros m. unfold or_else, Date_toISOString, Date_now, call, record, bind, ret.
    destruct (GetObjectOutput.Metadata response ≫= _) as [u|];
      [destruct (truthy (Some u))|]; try destruct (clock env (world m)); eauto. }
  destruct (GetObjectOutput.Metadata response ≫= (.!! "content-hash")) as [h|] eqn:Eh;
    cbn [default from_option id]; unfold or_else at 1.
  - destruct (truthy (Some h)) eqn:Et; cbn [andb].
    + destruct (verifyHash (Buffer data) h) eqn:Ev; cbn [negb];
        [|eexists EmptyString, _; reflexivity].
      apply verifyHash_iff in Ev. subst h. cbv [ret].
      match goal with |- context [or_else ?a ?b ?m] =>
        destruct (Hts m) as (ts & m' & ->) end.
      eexists ts, _. reflexivity.
    + rewrite generateIntegrityMetadata_run. cbn [IntegrityMetadata.hash].
      match goal with |- context [or_else ?a ?b ?m] =>
        destruct (Hts m) as (ts & m' & ->) end.
      eexists ts, _. reflexivity.
  - cbn [truthy andb]. rewrite generateIntegrityMetadata_run. cbn [IntegrityMetadata.hash].
    match goal with |- context [or_else ?a ?b ?m] =>
      destruct (Hts m) as (ts & m' & ->) end.
    eexists ts, _. reflexivity.
Qed.

Lemma IPFSStore_retrieve_run self ipfsHash s :
  exists ts s',
    IPFSStore.retrieve env self ipfsHash s =
      (let chunks := fst (cat env (IPFSStore.client self) ipfsHash (IPFSStore.timeout self)
                            (world s)) in
       match Iterated.failure chunks with
       | Some f => rejected (ClientError f)
       | None =>
           fulfilled
             {| RetrieveResult.data := concat (Iterated.yielded chunks);
                RetrieveResult.metadata :=
                  {| IntegrityMetadata.hash :=
                       sha256 (Buffer (concat (Iterated.yielded chunks)));
                     IntegrityMetadata.size :=
                       Z.of_nat (length (concat (Iterated.yielded chunks)));
                     IntegrityMetadata.timestamp := ts |} |}
       end, s').
Proof.
  unfold IPFSStore.retrieve.
  cbv [bind ret client_cat call record throw].
  destruct (cat env _ _ _ (world s)) as [chunks w1]; cbn [fst snd].
  destruct (Iterated.failure chunks); [eexists EmptyString, _; reflexivity|].
  rewrite generateIntegrityMetadata_run.
  cbn [IntegrityMetadata.hash IntegrityMetadata.size].
  unfold Date_toISOString, Date_now, call, record, bind, ret; cbn [world trace fst snd].
  destruct (clock env _) as [t2 w3]. eexists _, _. reflexivity.
Qed.

Lemma both_Some {A} (field : option string) (store : option A) k st :
  both field store = Some (k, st) <-> field = Some k /\ truthy field = true /\ store = Some st.
Proof.
  unfold both. destruct field as [f|], store as [x|]; cbn [truthy];
    try (split; [discriminate | intros (? & ? & ?); discriminate]).
  destruct (negb (String.eqb f "")); split.
  - intros [= -> ->]. auto.
  - intros ([= ->] & _ & [= ->]). reflexivity.
  - discriminate.
  - intros (_ & ? & _). discriminate.
Qed.

Lemma both_None_l {A} (field : option string) (store : option A) :
  truthy field = false -> both field store = None.
Proof. unfold both. destruct field, store; try reflexivity. intros ->. reflexivity. Qed.

Lemma both_None_r {A} (field : option string) : both field (@None A) = None.
Proof. unfold both. destruct field; reflexivity. Qed.

(** C3. When the selector names an S3 key (a non-empty string), the S3
    backend is configured and the S3 read fails with [e]: if the selector
    has no IPFS hash ([undefined] or empty), [retrieve] fails with that
    same [e], in the state the S3 read left; if it has one and the IPFS
    backend is configured, [retrieve] is the IPFS read, run after the
    failed S3 read, and its outcome is the outcome of the call. *)
Theorem retrieve_falls_back_or_propagates
    (self : EvidenceStore.t) (source : Source.t) key s3 e (s s1 : machine W) :
  Source.s3Key source = Some key ->
  truthy (Source.s3Key source) = true ->
  EvidenceStore.s3Store self = Some s3 ->
  S3Store.retrieve env s3 key s = (rejected e, s1) ->
  (truthy (Source.ipfsHash source) = false ->
     EvidenceStore.retrieve env self source s = (rejected e, s1))
  /\ (forall ipfsHash ipfs,
        Source.ipfsHash source = Some ipfsHash ->
        truthy (Source.ipfsHash source) = true ->
        EvidenceStore.ipfsStore self = Some ipfs ->
        EvidenceStore.retrieve env self source s
        = IPFSStore.retrieve env ipfs ipfsHash s1).
Proof.
  intros Hkey Hpresent Hs3 Hfail.
  assert (Hboth : both (Source.s3Key source) (EvidenceStore.s3Store self) = Some (key, s3))
    by (apply both_Some; auto).
  unfold EvidenceStore.retrieve. rewrite Hboth.
  cbv [bind try_catch ret throw]. rewrite Hfail. split.
  - intros ->. reflexivity.
  - intros ipfsHash ipfs Hhash Hhash_present Hipfs. rewrite Hhash_present. cbn [negb].
    replace (both (Source.ipfsHash source) (EvidenceStore.ipfsStore self))
      with (Some (ipfsHash, ipfs)) by (symmetry; apply both_Some; auto).
    reflexivity.
Qed.

(** C10. When the selector names an S3 key, the S3 backend is configured and
    the S3 read fails, and the selector also names an IPFS hash while no
    IPFS backend is configured, the S3 error is dropped: [retrieve] throws
    "No valid storage source provided or available". *)
Theorem retrieve_masks_error_without_ipfs_backend
    (self : EvidenceStore.t) (source : Source.t) key s3 e (s s1 : machine W) :
  Source.s3Key source = Some key ->
  truthy (Source.s3Key source) = true ->
  EvidenceStore.s3Store self = Some s3 ->
  S3Store.retrieve env s3 key s = (rejected e, s1) ->
  truthy (Source.ipfsHash source) = true ->
  EvidenceStore.ipfsStore self = None ->
  EvidenceStore.retrieve env self source s
  = (rejected (Error "No valid storage source provided or available"), s1)
  /\ NoSourceAvailableError = Error "No valid storage source provided or available".
Proof.
  intros Hkey Hpresent Hs3 Hfail Hhash Hipfs.
  assert (Hboth : both (Source.s3Key source) (EvidenceStore.s3Store self) = Some (key, s3))
    by (apply both_Some; auto).
  unfold EvidenceStore.retrieve. rewrite Hboth.
  cbv [bind try_catch ret throw]. rewrite Hfail, Hhash, Hipfs, both_None_r.
  split; reflexivity.
Qed.

Lemma IntegrityError_not_NotFoundError key : IntegrityError key <> NotFoundError key.
Proof. unfold IntegrityError, NotFoundError. cbn. discriminate. Qed.

Lemma ClientError_not_IntegrityError f key : ClientError f <> IntegrityError key.
Proof. discriminate. Qed.

Lemma rejected_inj {A} (e1 e2 : js_error) : @rejected A e1 = rejected e2 -> e1 = e2.
Proof. intros H. injection H as H. exact H. Qed.

(** The five ways an S3 read can end. *)
Lemma S3Store_retrieve_inv (self : S3Store.t) key (s : machine W) :
  let reply := fst (GetObject env (S3Store.client self) (s3_request self key) (world s)) in
  let r := fst (S3Store.retrieve env self key s) in
  (exists f, reply = failed f /\ r = rejected (ClientError f))
  \/ (exists response,
        reply = ok response /\ GetObjectOutput.Body response = None
        /\ r = rejected (NotFoundError key))
  \/ (exists response f,
        reply = ok response /\ GetObjectOutput.Body response = Some (failed f)
        /\ r = rejected (ClientError f))
  \/ (exists response data h,
        reply = ok response /\ GetObjectOutput.Body response = Some (ok data)
        /\ stored_hash response = Some h /\ h <> "" /\ h <> sha256 (Buffer data)
        /\ r = rejected (IntegrityError key))
  \/ (exists response data ts,
        reply = ok response /\ GetObjectOutput.Body response = Some (ok data)
        /\ (truthy (stored_hash response) = true ->
            stored_hash response = Some (sha256 (Buffer data)))
        /\ r = fulfilled
                 {| RetrieveResult.data := data;
                    RetrieveResult.metadata :=
                      {| IntegrityMetadata.hash := sha256 (Buffer data);
                         IntegrityMetadata.size := Z.of_nat (length data);
                         IntegrityMetadata.timestamp := ts |} |}).
Proof.
  cbv zeta. destruct (S3Store_retrieve_run self key s) as (ts & s' & ->). cbn [fst].
  destruct (fst (GetObject env _ _ (world s))) as [response|f].
  2: { left. exists f. split; reflexivity. }
  destruct (GetObjectOutput.Body response) as [[data|f]|] eqn:Eb.
  3: { right; left. exists response. repeat split; try reflexivity; assumption. }
  2: { right; right; left. exists response, f. repeat split; try reflexivity; assumption. }
  right; right; right.
  destruct (stored_hash response) as [h|] eqn:Eh; cbn [default from_option id].
  2: { right. exists response, data, ts. cbn [truthy andb].
       repeat split; try reflexivity; try assumption. rewrite Eh. discriminate. }
  destruct (truthy (Some h)) eqn:Et; cbn [andb].
  2: { right. exists response, data, ts. repeat split; try reflexivity; try assumption.
       rewrite Eh, Et. discriminate. }
  destruct (verifyHash (Buffer data) h) eqn:Ev; cbn [negb].
  - right. apply verifyHash_iff in Ev. subst h.
    exists response, data, ts.
    repeat split; try reflexivity; try assumption. intros _. assumption.
  - left. apply verifyHash_false in Ev. apply truthy_Some in Et.
    exists response, data, h. repeat split; try reflexivity; assumption.
Qed.

(** C5. [S3Store.retrieve] throws "Hash verification failed for object: key"
    exactly when the object's bytes were retrieved and its [content-hash]
    attribute is present (a non-empty string) and differs from the hash
    recomputed from those bytes; once the bytes are retrieved this is the
    only way it throws. That error differs from the "Object not found"
    error. A result is only returned for bytes that hash to the hash it
    reports, which is the stored hash when there is one. *)
Theorem S3Store_retrieve_verifies_stored_hash (self : S3Store.t) key (s : machine W) :
  let reply := fst (GetObject env (S3Store.client self) (s3_request self key) (world s)) in
  let r := fst (S3Store.retrieve env self key s) in
  (r = rejected (IntegrityError key) <->
     exists response data h,
       reply = ok response
       /\ GetObjectOutput.Body response = Some (ok data)
       /\ stored_hash response = Some h /\ h <> "" /\ h <> sha256 (Buffer data))
  /\ (forall response data,
        reply = ok response -> GetObjectOutput.Body response = Some (ok data) ->
        ((exists e, r = rejected e) <->
           truthy (stored_hash response) = true
           /\ stored_hash response <> Some (sha256 (Buffer data))))
  /\ IntegrityError key <> NotFoundError key
  /\ (forall result, r = fulfilled result ->
        exists response,
          reply = ok response
          /\ GetObjectOutput.Body response = Some (ok (RetrieveResult.data result))
          /\ IntegrityMetadata.hash (RetrieveResult.metadata result)
             = sha256 (Buffer (RetrieveResult.data result))
          /\ (truthy (stored_hash response) = true ->
              stored_hash response = Some (sha256 (Buffer (RetrieveResult.data result))))).
Proof.
  cbv zeta.
  destruct (S3Store_retrieve_inv self key s)
    as [(f & Hr & ->)|[(resp & Hr & Hb & ->)|[(resp & f & Hr & Hb & ->)
       |[(resp & data & h & Hr & Hb & Hh & Hne & Hdiff & ->)
        |(resp & data & ts & Hr & Hb & Hh & ->)]]]];
    rewrite Hr; (split; [|split; [|split; [apply IntegrityError_not_NotFoundError|]]]).
  all: try (intros result [=]; fail).
  all: try (intros response0 data0 [= <-] Hb0; rewrite Hb in Hb0; discriminate Hb0).
  all: try (intros ? ? [=]; fail).
  - split; [intros H; apply rejected_inj in H; discriminate H
           | intros (? & ? & ? & H & _)].
    discriminate H.
  - split.
    + intros H. apply rejected_inj in H. symmetry in H.
      destruct (IntegrityError_not_NotFoundError _ H).
    + intros (? & ? & ? & [= <-] & Hb0 & _). rewrite Hb in Hb0. discriminate Hb0.
  - split.
    + intros H. apply rejected_inj in H. discriminate H.
    + intros (? & ? & ? & [= <-] & Hb0 & _). rewrite Hb in Hb0. discriminate Hb0.
  - split; [intros _ | reflexivity].
    exists resp, data, h. repeat split; assumption.
  - intros ? ? [= <-] Hb0. rewrite Hb in Hb0. injection Hb0 as <-. rewrite Hh. split.
    + intros _. split; [apply truthy_Some; assumption|]. intros [= ?]. contradiction.
    + intros _. eexists. reflexivity.
  - split; [discriminate|].
    intros (? & ? & h0 & [= <-] & Hb0 & Hh0 & Hne0 & Hd0).
    rewrite Hb in Hb0. injection Hb0 as <-. exfalso. apply Hd0.
    rewrite Hh0 in Hh. apply truthy_Some in Hne0. specialize (Hh Hne0).
    injection Hh as ->. reflexivity.
  - intros ? ? [= <-] Hb0. rewrite Hb in Hb0. injection Hb0 as <-. split.
    + intros [e He]. discriminate He.
    + intros [Ht Hn]. destruct (Hn (Hh Ht)).
  - intros result [= <-]. exists resp. cbn. repeat split; assumption.
Qed.

Lemma S3Store_retrieve_hash (self : S3Store.t) key (s : machine W) result :
  fst (S3Store.retrieve env self key s) = fulfilled result ->
  IntegrityMetadata.hash (RetrieveResult.metadata result)
  = sha256 (Buffer (RetrieveResult.data result)).
Proof.
  destruct (S3Store_retrieve_run self key s) as (ts & s' & ->). cbn [fst].
  destruct (fst (GetObject env _ _ (world s))) as [response|f]; [|discriminate].
  destruct (GetObjectOutput.Body response) as [[data|f]|]; [|discriminate..].
  destruct (truthy _ && _); [discriminate|]. intros [= <-]. reflexivity.
Qed.

Lemma IPFSStore_retrieve_hash (self : IPFSStore.t) ipfsHash (s : machine W) result :
  fst (IPFSStore.retrieve env self ipfsHash s) = fulfilled result ->
  IntegrityMetadata.hash (RetrieveResult.metadata result)
  = sha256 (Buffer (RetrieveResult.data result)).
Proof.
  destruct (IPFSStore_retrieve_run self ipfsHash s) as (ts & s' & ->). cbn [fst].
  destruct (Iterated.failure _); [discriminate|]. intros [= <-]. reflexivity.
Qed.

Lemma EvidenceStore_retrieve_hash (self : EvidenceStore.t) source (s : machine W) result :
  fst (EvidenceStore.retrieve env self source s) = fulfilled result ->
  IntegrityMetadata.hash (RetrieveResult.metadata result)
  = sha256 (Buffer (RetrieveResult.data result)).
Proof.
  unfold EvidenceStore.retrieve. cbv [bind try_catch ret throw].
  destruct (both (Source.s3Key source) (EvidenceStore.s3Store self)) as [[key s3]|].
  - destruct (S3Store.retrieve env s3 key s) as [[r|e] s1] eqn:E.
    + intros [= <-]. apply (S3Store_retrieve_hash s3 key s). rewrite E. reflexivity.
    + destruct (negb (truthy (Source.ipfsHash source))); [discriminate|].
      destruct (both (Source.ipfsHash source) (EvidenceStore.ipfsStore self))
        as [[h ipfs]|]; [|discriminate].
      apply IPFSStore_retrieve_hash.
  - destruct (both (Source.ipfsHash source) (EvidenceStore.ipfsStore self))
      as [[h ipfs]|]; [|discriminate].
    apply IPFSStore_retrieve_hash.
Qed.

(** C4, as the code has it. The [verified] flag of the metadata returned is
    true exactly when the hash recomputed from the retrieved bytes equals
    the hash carried by the retrieve result; both adapters only return
    results whose hash is the hash of their bytes, so the flag is true
    whenever [getMetadata] returns. Errors of [retrieve] are rethrown: for
    an S3 object whose stored hash does not match its bytes, and a selector
    without IPFS hash, [getMetadata] throws the hash verification error. *)
Theorem getMetadata_verified_flag
    (self : EvidenceStore.t) (source : Source.t) (s : machine W) :
  (forall md s', EvidenceStore.getMetadata env self source s = (fulfilled md, s') ->
     exists result,
       EvidenceStore.retrieve env self source s = (fulfilled result, s')
       /\ EvidenceMetadata.hash md = IntegrityMetadata.hash (RetrieveResult.metadata result)
       /\ (EvidenceMetadata.verified md = true
           <-> sha256 (Buffer (RetrieveResult.data result))
               = IntegrityMetadata.hash (RetrieveResult.metadata result))
       /\ EvidenceMetadata.verified md = true)
  /\ (forall e s', EvidenceStore.retrieve env self source s = (rejected e, s') ->
        EvidenceStore.getMetadata env self source s = (rejected e, s'))
  /\ (forall key s3 response data h,
        Source.s3Key source = Some key ->
        truthy (Source.s3Key source) = true ->
        EvidenceStore.s3Store self = Some s3 ->
        truthy (Source.ipfsHash source) = false ->
        fst (GetObject env (S3Store.client s3) (s3_request s3 key) (world s)) = ok response ->
        GetObjectOutput.Body response = Some (ok data) ->
        stored_hash response = Some h -> h <> "" -> h <> sha256 (Buffer data) ->
        fst (EvidenceStore.getMetadata env self source s) = rejected (IntegrityError key)).
Proof.
  split; [|split].
  - intros md s'. unfold EvidenceStore.getMetadata. unfold bind at 1.
    destruct (EvidenceStore.retrieve env self source s) as [[result|e] s1] eqn:E;
      [|discriminate].
    cbv [ret]. intros [= <- <-]. exists result.
    cbn [EvidenceMetadata.hash EvidenceMetadata.verified].
    assert (Hh := EvidenceStore_retrieve_hash self source s result).
    rewrite E in Hh. specialize (Hh eq_refl).
    split; [reflexivity|]. split; [reflexivity|].
    split; [|apply verifyHash_iff; exact Hh].
    split; intros Hv.
    + apply verifyHash_iff in Hv. symmetry. exact Hv.
    + apply verifyHash_iff. symmetry. exact Hv.
  - intros e s' E. unfold EvidenceStore.getMetadata. unfold bind at 1. rewrite E.
    reflexivity.
  - intros key s3 response data h Hkey Hpresent Hs3 Hnohash Hreply Hbody Hstored Hne Hdiff.
    assert (Hboth : both (Source.s3Key source) (EvidenceStore.s3Store self) = Some (key, s3))
      by (apply both_Some; auto).
    assert (Hfail : fst (S3Store.retrieve env s3 key s) = rejected (IntegrityError key)).
    { destruct (S3Store_retrieve_run s3 key s) as (ts & s' & ->). cbn [fst].
      rewrite Hreply, Hbody, Hstored. cbn [default from_option id].
      apply truthy_Some in Hne. rewrite Hne.
      apply verifyHash_false in Hdiff. rewrite Hdiff. reflexivity. }
    unfold EvidenceStore.getMetadata, EvidenceStore.retrieve. rewrite Hboth.
    cbv [bind try_catch ret throw].
    destruct (S3Store.retrieve env s3 key s) as [r s1]. cbn [fst] in Hfail. subst r.
    rewrite Hnohash. reflexivity.
Qed.

Lemma S3Store_exists_run (self : S3Store.t) key (s : machine W) :
  S3Store.exists_ env self key s =
    (match fst (HeadObject env (S3Store.client self) (s3_request self key) (world s)) with
     | ok _ => fulfilled true
     | failed f =>
         if String.eqb (ClientFailure.name f) "NoSuchKey"
            || String.eqb (ClientFailure.name f) "NotFound"
         then fulfilled false
         else rejected (ClientError f)
     end,
     Machine (snd (HeadObject env (S3Store.client self) (s3_request self key) (world s)))
       (trace s ++ [EvHeadObject (S3Store.client self) (s3_request self key)
                      (fst (HeadObject env (S3Store.client self) (s3_request self key)
                              (world s)))])).
Proof.
  unfold S3Store.exists_, s3_request.
  cbv [try_catch bind ret throw send_HeadObject call record await error_name].
  destruct (HeadObject env _ _ (world s)) as [[[]|f] w1]; cbn [fst snd]; [reflexivity|].
  destruct (_ || _); reflexivity.
Qed.

Lemma IPFSStore_exists_run (self : IPFSStore.t) ipfsHash (s : machine W) :
  IPFSStore.exists_ env self ipfsHash s =
    (fulfilled
       match Iterated.yielded (fst (pin_ls env (IPFSStore.client self) [ipfsHash] (world s)))
       with
       | cid :: _ => String.eqb cid ipfsHash
       | [] => false
       end,
     Machine (snd (pin_ls env (IPFSStore.client self) [ipfsHash] (world s)))
       (trace s ++ [EvPinLs (IPFSStore.client self) [ipfsHash]
                      (fst (pin_ls env (IPFSStore.client self) [ipfsHash] (world s)))])).
Proof.
  unfold IPFSStore.exists_.
  cbv [try_catch bind ret throw client_pin_ls call record].
  destruct (pin_ls env _ _ (world s)) as [results w1]; cbn [fst snd].
  destruct (Iterated.yielded results); [destruct (Iterated.failure results)|]; reflexivity.
Qed.

(** C8. [exists] always fulfils, with a pair of booleans. The S3 component
    is false exactly when the S3 backend is not configured, or the selector
    names no S3 key, or no [HeadObject] probe found the object (the probe
    failed, for whatever reason); likewise for IPFS and the [pin.ls] probe. *)
Theorem exists_never_raises (self : EvidenceStore.t) (source : Source.t) (w : W) :
  let '(r, s') := run (EvidenceStore.exists_ env self source) w in
  exists found,
    r = fulfilled found
    /\ (Existence.s3 found = false <->
          EvidenceStore.s3Store self = None
          \/ truthy (Source.s3Key source) = false
          \/ pick head_found (trace s') = [])
    /\ (Existence.ipfs found = false <->
          EvidenceStore.ipfsStore self = None
          \/ truthy (Source.ipfsHash source) = false
          \/ pick pin_found (trace s') = []).
Proof.
  unfold run, EvidenceStore.exists_.
  destruct self as [s3 ipfs], source as [key hash].
  cbn [EvidenceStore.s3Store EvidenceStore.ipfsStore Source.s3Key Source.ipfsHash].
  cbv [allSettled settle bind ret].
  destruct s3 as [s3|], key as [key|]; cbn [both truthy];
    try destruct (String.eqb key "") eqn:Ek; cbn [negb];
    rewrite ?S3Store_exists_run; cbn [world trace app fst snd];
    try (destruct (HeadObject env _ _ w) as [[[]|f] w1]; cbn [fst snd];
         try destruct (_ || _)).
  all: destruct ipfs as [ipfs|], hash as [hash|]; cbn [both truthy];
    try destruct (String.eqb hash "") eqn:Eh; cbn [negb];
    rewrite ?IPFSStore_exists_run; cbn [world trace app fst snd];
    try (match goal with |- context [pin_ls env ?c ?p ?w] =>
           destruct (pin_ls env c p w) as [[[|cid rest] failure] ?] end;
         cbn [fst snd Iterated.yielded];
         try destruct (String.eqb cid hash) eqn:Ec).
  all: eexists; (split; [reflexivity|]);
    cbn [EvidenceStore.value_or_false Existence.s3 Existence.ipfs lookup list_lookup
         pick head_found pin_found trace Iterated.yielded];
    rewrite ?Ec; cbn [pick].
  all: split; split; intros; 
    repeat match goal with H : _ \/ _ |- _ => destruct H end;
    try discriminate; auto.
Qed.
End Retrieve.

(** ** Runs in the simulated world *)

(** C2, refuted as stated. Storing ["hello world"] with both backends, on a
    clock that advances between readings: the result returned carries the
    timestamp of the first reading, the object written to S3 carries the
    timestamp of the second, and the metadata was computed three times. *)
Lemma store_embeds_a_later_timestamp :
  let key := "evidence/b94d27b9934d3e08a52e52d7da7dabfac484efe37a5380ee9088f7ace2efcde9" in
  let out :=
    run (EvidenceStore.store Sim.env Sim.both_stores (Text "hello world") None) Sim.fresh in
  let embedded :=
    Sim.objects (world (snd out)) !! key ≫= (fun object => Sim.attributes object !! "upload-timestamp") in
  StoreResult.s3Key <$> fst out = fulfilled (Some key)
  /\ StoreResult.timestamp <$> fst out = fulfilled "1970-01-01T00:00:00.000Z"
  /\ embedded = Some "1970-01-01T00:00:00.001Z"
  /\ fulfilled <$> embedded <> Some (StoreResult.timestamp <$> fst out)
  /\ pick clock_reading (trace (snd out)) = [0; 1; 2].
Proof.
  cbv zeta. repeat split; try (vm_compute; reflexivity). vm_compute. discriminate.
Qed.

(** C4, refuted as stated. The object at ["evidence/tampered"] records a hash
    that is not the hash of its bytes; [getMetadata] on its key does not
    return metadata with [verified] false, it throws the hash verification
    error raised by the S3 read. *)
Lemma getMetadata_throws_on_tampered_hash :
  let source := {| Source.s3Key := Some "evidence/tampered"; Source.ipfsHash := None |} in
  let out := run (EvidenceStore.getMetadata Sim.env Sim.s3_only source) Sim.tampered in
  (Sim.objects Sim.tampered !! "evidence/tampered"
     ≫= (fun object => Sim.attributes object !! "content-hash"))
  = Some "0x1234567890abcdef1234567890abcdef1234567890abcdef1234567890abcdef"
  /\ (sha256 ∘ Buffer ∘ Sim.body <$> Sim.objects Sim.tampered !! "evidence/tampered")
     = Some "0xb94d27b9934d3e08a52e52d7da7dabfac484efe37a5380ee9088f7ace2efcde9"
  /\ fst out = rejected (Error "Hash verification failed for object: evidence/tampered")
  /\ ~ (exists md, fst out = fulfilled md /\ EvidenceMetadata.verified md = false).
Proof.
  cbv zeta. repeat split; try (vm_compute; reflexivity).
  intros (md & Hout & _). vm_compute in Hout. discriminate Hout.
Qed.

Lemma getMetadata_verified_flag_witness :
  let source := {| Source.s3Key := Some "evidence/tampered"; Source.ipfsHash := None |} in
  fst (EvidenceStore.getMetadata Sim.env Sim.s3_only source (Machine Sim.tampered []))
  = rejected (IntegrityError "evidence/tampered").
Proof.
  cbv zeta.
  eapply (proj2 (proj2 (getMetadata_verified_flag Sim.env Sim.s3_only _ _))
            "evidence/tampered" Sim.s3_store).
  - reflexivity.
  - reflexivity.
  - reflexivity.
  - reflexivity.
  - vm_compute. reflexivity.
  - reflexivity.
  - vm_compute. reflexivity.
  - discriminate.
  - vm_compute. discriminate.
Defined.

Lemma retrieve_falls_back_or_propagates_witness :
  let s3 := Sim.s3_store in
  let ipfs := Sim.ipfs_store in
  let hash := Sim.cid_of Sim.hello in
  let s := Machine (Sim.pinned Sim.hello) [] in
  let s1 := snd (S3Store.retrieve Sim.env s3 "evidence/missing" s) in
  S3Store.retrieve Sim.env s3 "evidence/missing" s = (rejected (ClientError Sim.NoSuchKey), s1)
  /\ EvidenceStore.retrieve Sim.env Sim.both_stores
       {| Source.s3Key := Some "evidence/missing"; Source.ipfsHash := None |} s
     = (rejected (ClientError Sim.NoSuchKey), s1)
  /\ EvidenceStore.retrieve Sim.env Sim.both_stores
       {| Source.s3Key := Some "evidence/missing"; Source.ipfsHash := Some hash |} s
     = IPFSStore.retrieve Sim.env ipfs hash s1
  /\ RetrieveResult.data <$> fst (IPFSStore.retrieve Sim.env ipfs hash s1)
     = fulfilled Sim.hello.
Proof.
  cbv zeta.
  assert (Hfail : S3Store.retrieve Sim.env Sim.s3_store "evidence/missing"
                    (Machine (Sim.pinned Sim.hello) [])
                  = (rejected (ClientError Sim.NoSuchKey),
                     snd (S3Store.retrieve Sim.env Sim.s3_store
                            "evidence/missing" (Machine (Sim.pinned Sim.hello) []))))
    by (vm_compute; reflexivity).
  split; [exact Hfail|]. split; [|split].
  - apply (retrieve_falls_back_or_propagates Sim.env Sim.both_stores
             {| Source.s3Key := Some "evidence/missing"; Source.ipfsHash := None |}
             "evidence/missing" _ _ _ _ eq_refl eq_refl eq_refl Hfail).
    reflexivity.
  - apply (retrieve_falls_back_or_propagates Sim.env Sim.both_stores
             {| Source.s3Key := Some "evidence/missing";
                Source.ipfsHash := Some (Sim.cid_of Sim.hello) |}
             "evidence/missing" _ _ _ _ eq_refl eq_refl eq_refl Hfail);
      vm_compute; reflexivity.
  - vm_compute. reflexivity.
Defined.

Lemma retrieve_masks_error_witness :
  let s3 := Sim.s3_store in
  let s := Machine Sim.fresh [] in
  let s1 := snd (S3Store.retrieve Sim.env s3 "evidence/missing" s) in
  S3Store.retrieve Sim.env s3 "evidence/missing" s = (rejected (ClientError Sim.NoSuchKey), s1)
  /\ EvidenceStore.retrieve Sim.env Sim.s3_only
       {| Source.s3Key := Some "evidence/missing"; Source.ipfsHash := Some "QmTest123" |} s
     = (rejected (Error "No valid storage source provided or available"), s1).
Proof.
  cbv zeta.
  assert (Hfail : S3Store.retrieve Sim.env Sim.s3_store "evidence/missing"
                    (Machine Sim.fresh [])
                  = (rejected (ClientError Sim.NoSuchKey),
                     snd (S3Store.retrieve Sim.env Sim.s3_store
                            "evidence/missing" (Machine Sim.fresh []))))
    by (vm_compute; reflexivity).
  split; [exact Hfail|].
  apply (retrieve_masks_error_without_ipfs_backend Sim.env Sim.s3_only
           {| Source.s3Key := Some "evidence/missing"; Source.ipfsHash := Some "QmTest123" |}
           "evidence/missing" _ _ _ _ eq_refl eq_refl eq_refl Hfail eq_refl eq_refl).
Defined.

Lemma S3Store_retrieve_verifies_witness :
  exists e,
    fst (S3Store.retrieve Sim.env Sim.s3_store "evidence/tampered"
           (Machine Sim.tampered []))
    = rejected e.
Proof.
  pose proof (S3Store_retrieve_verifies_stored_hash Sim.env Sim.s3_store
                "evidence/tampered" (Machine Sim.tampered [])) as H.
  cbv zeta in H. destruct H as (_ & H & _).
  eapply H.
  - vm_compute. reflexivity.
  - reflexivity.
  - split; [reflexivity | vm_compute; discriminate].
Defined.

(** * Further properties of the adapters and the orchestrator *)

Lemma list_byte_of_string_length s : length (list_byte_of_string s) = String.length s.
Proof.
  unfold list_byte_of_string. rewrite length_map.
  induction s as [|c s IH]; simpl; [reflexivity|]. f_equal. exact IH.
Qed.

Lemma append_length a b : String.length (a +:+ b) = (String.length a + String.length b)%nat.
Proof. induction a as [|c a IH]; simpl; [reflexivity|]. f_equal. exact IH. Qed.

Lemma data_size data :
  match data with
  | Buffer b => Z.of_nat (length b)
  | Text t => Buffer_byteLength t
  end = Z.of_nat (length (Buffer_from data)).
Proof.
  destruct data as [t|b]; cbn; [|reflexivity].
  unfold Buffer_byteLength. rewrite list_byte_of_string_length. reflexivity.
Qed.

Section Further.
Context {W : Type} (env : Env W).

(** [generateIntegrityMetadata] never throws and reads the clock once. Its
    hash and size are those of the bytes: a string is measured and hashed
    as its UTF-8 encoding, so a string and the buffer of its bytes get the
    same hash and size, whatever the state of the world; only the timestamp
    comes from the clock. *)
Theorem generateIntegrityMetadata_of_bytes (data : Data) (s : machine W) :
  exists t w',
    clock env (world s) = (t, w')
    /\ generateIntegrityMetadata env data s
       = (fulfilled {| IntegrityMetadata.hash := sha256 (Buffer (Buffer_from data));
                       IntegrityMetadata.size := Z.of_nat (length (Buffer_from data));
                       IntegrityMetadata.timestamp := toISOString t |},
          Machine w' (trace s ++ [EvClock t])).
Proof.
  rewrite generateIntegrityMetadata_run, data_size.
  destruct (clock env (world s)) as [t w']. exists t, w'. split; [reflexivity|].
  destruct data; reflexivity.
Qed.


(** The whole of what [S3Store.store] does: its clock readings, the one
    command it sends, and how the reply becomes its result. *)
Lemma S3Store_store_trace (self : S3Store.t) data key (w : W) :
  exists t0 t1 cmd reply,
    trace (snd (run (S3Store.store env self data key) w))
    = EvClock t0 :: (if S3Store.objectLockEnabled self then [EvClock t1] else [])
        ++ [EvPutObject (S3Store.client self) cmd reply]
    /\ cmd = {| PutObjectCommand.Bucket := S3Store.bucket self;
                PutObjectCommand.Key :=
                  match key with
                  | Some k => k
                  | None => "evidence/" +:+ slice 2 (sha256 (Buffer (Buffer_from data)))
                  end;
                PutObjectCommand.Body := Buffer_from data;
                PutObjectCommand.ContentType := "application/octet-stream";
                PutObjectCommand.Metadata := s3_metadata (Buffer_from data) t0;
                PutObjectCommand.ObjectLockMode :=
                  if S3Store.objectLockEnabled self then Some "GOVERNANCE" else None;
                PutObjectCommand.ObjectLockRetainUntilDate :=
                  if S3Store.objectLockEnabled self
                  then Some (t1 + 365 * 24 * 60 * 60 * 1000) else None |}
    /\ fst (run (S3Store.store env self data key) w)
       = match reply with
         | ok _ =>
             fulfilled
               {| StoreResult.hash := sha256 (Buffer (Buffer_from data));
                  StoreResult.size := Z.of_nat (length (Buffer_from data));
                  StoreResult.s3Key := Some (PutObjectCommand.Key cmd);
                  StoreResult.ipfsHash := None;
                  StoreResult.timestamp := toISOString t0 |}
         | failed f => rejected (ClientError f)
         end.
Proof.
  unfold run, S3Store.store. cbv [bind]. rewrite generateIntegrityMetadata_run.
  cbn [IntegrityMetadata.hash IntegrityMetadata.size IntegrityMetadata.timestamp
       world trace app].
  destruct (clock env w) as [t0 w1]; cbn [fst snd].
  destruct (S3Store.objectLockEnabled self);
    cbv [ret send_PutObject Date_now call record await throw world trace bind].
  - destruct (clock env w1) as [t1 w2].
    match goal with |- context [PutObject env ?c ?cmd ?w] =>
      exists t0, t1, cmd, (fst (PutObject env c cmd w));
      destruct (PutObject env c cmd w) as [[[]|f] w3] end;
    cbn [fst snd trace app]; (split; [reflexivity|split; reflexivity]).
  - match goal with |- context [PutObject env ?c ?cmd ?w] =>
      exists t0, 0, cmd, (fst (PutObject env c cmd w));
      destruct (PutObject env c cmd w) as [[[]|f] w3] end;
    cbn [fst snd trace app]; (split; [reflexivity|split; reflexivity]).
Qed.

Lemma slice_prefix h : slice 2 ("0x" +:+ h) = h.
Proof. reflexivity. Qed.

(** [S3Store.store] sends exactly one [PutObject], to the configured
    bucket. Its key is the caller's key when one is given, even the empty
    string ([??] only replaces [undefined]); otherwise it is ["evidence/"]
    followed by the 64 hexadecimal digits of the content hash, without the
    ["0x"] marker: 73 characters that depend on the bytes alone. A
    successful store returns that key. *)
Theorem S3Store_store_key (self : S3Store.t) data key (w : W) :
  let out := run (S3Store.store env self data key) w in
  exists cmd,
    pick put_command (trace (snd out)) = [cmd]
    /\ PutObjectCommand.Bucket cmd = S3Store.bucket self
    /\ PutObjectCommand.Key cmd
       = match key with
         | Some k => k
         | None => "evidence/" +:+ hex (SHA256.digest_bytes (map byte_val (Buffer_from data)))
         end
    /\ (key = None -> String.length (PutObjectCommand.Key cmd) = 73%nat)
    /\ (forall result, fst out = fulfilled result ->
          StoreResult.s3Key result = Some (PutObjectCommand.Key cmd)).
Proof.
  cbv zeta. destruct (S3Store_store_trace self data key w) as (t0 & t1 & cmd & reply & -> & Hcmd & ->).
  exists cmd. split.
  { destruct (S3Store.objectLockEnabled self); reflexivity. }
  subst cmd. cbn [PutObjectCommand.Bucket PutObjectCommand.Key].
  split; [reflexivity|]. split; [destruct key; reflexivity|]. split.
  - intros ->. unfold sha256. rewrite slice_prefix, append_length, hex_length,
      digest_bytes_length. reflexivity.
  - intros result. destruct reply; [|discriminate]. intros [= <-]. reflexivity.
Qed.

(** With object lock enabled, the [PutObject] sent by [S3Store.store] asks
    for GOVERNANCE mode with a retention date exactly 365 days
    (31 536 000 000 ms) after a second reading of the clock, taken after the
    one that stamps the metadata; with object lock disabled the command
    carries neither and the clock is read once. *)
Theorem S3Store_store_object_lock (self : S3Store.t) data key (w : W) :
  let out := run (S3Store.store env self data key) w in
  exists cmd,
    pick put_command (trace (snd out)) = [cmd]
    /\ if S3Store.objectLockEnabled self
       then exists t0 t1,
              pick clock_reading (trace (snd out)) = [t0; t1]
              /\ PutObjectCommand.ObjectLockMode cmd = Some "GOVERNANCE"
              /\ PutObjectCommand.ObjectLockRetainUntilDate cmd = Some (t1 + 31536000000)
       else exists t0,
              pick clock_reading (trace (snd out)) = [t0]
              /\ PutObjectCommand.ObjectLockMode cmd = None
              /\ PutObjectCommand.ObjectLockRetainUntilDate cmd = None.
Proof.
  cbv zeta. destruct (S3Store_store_trace self data key w) as (t0 & t1 & cmd & reply & -> & Hcmd & _).
  exists cmd. destruct (S3Store.objectLockEnabled self); (split; [reflexivity|]).
  - exists t0, t1. subst cmd. repeat split.
  - exists t0. subst cmd. repeat split.
Qed.

(** *** Reading from S3 *)

Lemma or_else_truthy (a : option string) (b : M W string) u (s : machine W) :
  a = Some u -> truthy a = true -> or_else a b s = (fulfilled u, s).
Proof. intros -> Ht. unfold or_else. rewrite Ht. reflexivity. Qed.

Lemma or_else_falsy (a : option string) (b : M W string) (s : machine W) :
  truthy a = false -> or_else a b s = b s.
Proof. intros Ht. unfold or_else. destruct a; [rewrite Ht|]; reflexivity. Qed.

Lemma sha256_truthy data : truthy (Some (sha256 data)) = true.
Proof. reflexivity. Qed.

Lemma toISOString_truthy t : truthy (Some (toISOString t)) = true.
Proof.
  apply truthy_Some. intros H. apply (f_equal String.length) in H.
  unfold toISOString in H. destruct (civil_from_days _) as [[y m] d].
  rewrite append_length, (append_length "-") in H.
  change (String.length "-") with 1%nat in H. change (String.length "") with 0%nat in H.
  lia.
Qed.

(** An S3 read issues one [GetObject] and, besides, only reads the clock. *)
Lemma S3Store_retrieve_trace (self : S3Store.t) key (s : machine W) :
  exists clocks,
    trace (snd (S3Store.retrieve env self key s))
    = trace s ++ EvGetObject (S3Store.client self) (s3_request self key)
                   (fst (GetObject env (S3Store.client self) (s3_request self key) (world s)))
                 :: map EvClock clocks.
Proof.
  unfold S3Store.retrieve, s3_request.
  cbv [bind ret send_GetObject call record await throw transformToByteArray].
  destruct (GetObject env _ _ (world s)) as [[response|f] w1]; cbn [fst snd];
    [|exists []; reflexivity].
  destruct (GetObjectOutput.Body response) as [[data|f]|];
    [|exists []; reflexivity..].
  destruct (truthy _ && negb _); [exists []; reflexivity|].
  unfold or_else, generateIntegrityMetadata, Date_toISOString, Date_now, call, record,
    bind, ret.
  destruct (GetObjectOutput.Metadata response ≫= (.!! "content-hash")) as [h|];
    [destruct (truthy (Some h))|];
    (destruct (GetObjectOutput.Metadata response ≫= (.!! "upload-timestamp")) as [u|];
     [destruct (truthy (Some u))|]);
    cbn [world trace fst snd];
    repeat match goal with
      | |- context [clock env ?w] => destruct (clock env w) as [? ?]
      end;
    cbn [world trace fst snd]; rewrite <- ?app_assoc; cbn [app].
  all: first [ exists []; reflexivity
             | eexists [_]; reflexivity
             | eexists [_; _]; reflexivity ].
Qed.

Lemma s3_metadata_hash buffer t :
  s3_metadata buffer t !! "content-hash" = Some (sha256 (Buffer buffer)).
Proof. unfold s3_metadata. apply lookup_insert_eq. Qed.

Lemma s3_metadata_timestamp buffer t :
  s3_metadata buffer t !! "upload-timestamp" = Some (toISOString t).
Proof.
  unfold s3_metadata. rewrite !lookup_insert_ne by discriminate. apply lookup_insert_eq.
Qed.

(** A read of an object whose two attributes are present: no clock reading. *)
Lemma S3Store_retrieve_attributed (self : S3Store.t) key (s : machine W) response data u :
  fst (GetObject env (S3Store.client self) (s3_request self key) (world s)) = ok response ->
  GetObjectOutput.Body response = Some (ok data) ->
  stored_hash response = Some (sha256 (Buffer data)) ->
  GetObjectOutput.Metadata response ≫= (.!! "upload-timestamp") = Some u ->
  truthy (Some u) = true ->
  S3Store.retrieve env self key s
  = (fulfilled {| RetrieveResult.data := data;
                  RetrieveResult.metadata :=
                    {| IntegrityMetadata.hash := sha256 (Buffer data);
                       IntegrityMetadata.size := Z.of_nat (length data);
                       IntegrityMetadata.timestamp := u |} |},
     Machine (snd (GetObject env (S3Store.client self) (s3_request self key) (world s)))
       (trace s ++ [EvGetObject (S3Store.client self) (s3_request self key) (ok response)])).
Proof.
  intros Hreply Hbody Hhash Hts Hu.
  unfold S3Store.retrieve. fold (s3_request self key).
  cbv [bind ret send_GetObject call record await throw transformToByteArray].
  destruct (GetObject env _ _ (world s)) as [reply w1]. cbn [fst snd] in *. subst reply.
  rewrite Hbody. fold (stored_hash response). rewrite Hhash.
  cbn [default from_option id]. rewrite sha256_truthy.
  replace (verifyHash (Buffer data) (sha256 (Buffer data))) with true
    by (symmetry; apply verifyHash_iff; reflexivity).
  cbn [andb negb].
  rewrite (or_else_truthy _ _ (sha256 (Buffer data))) by (reflexivity || apply sha256_truthy).
  rewrite (or_else_truthy _ _ u) by (assumption || (rewrite Hts; assumption)).
  reflexivity.
Qed.

(** Round trip through S3. If [S3Store.store] succeeded and a later
    [GetObject] on the key it returned yields the body and attributes that
    store put, then [S3Store.retrieve] passes the hash verification and
    returns the stored bytes with exactly the hash, size and timestamp of
    the store result, without reading the clock. *)
Theorem S3Store_store_then_retrieve
    (self : S3Store.t) data key (w : W) (s : machine W) result k cmd :
  fst (run (S3Store.store env self data key) w) = fulfilled result ->
  StoreResult.s3Key result = Some k ->
  pick put_command (trace (snd (run (S3Store.store env self data key) w))) = [cmd] ->
  fst (GetObject env (S3Store.client self) (s3_request self k) (world s))
  = ok {| GetObjectOutput.Body := Some (ok (PutObjectCommand.Body cmd));
          GetObjectOutput.Metadata := Some (PutObjectCommand.Metadata cmd) |} ->
  fst (S3Store.retrieve env self k s)
  = fulfilled {| RetrieveResult.data := Buffer_from data;
                 RetrieveResult.metadata :=
                   {| IntegrityMetadata.hash := StoreResult.hash result;
                      IntegrityMetadata.size := StoreResult.size result;
                      IntegrityMetadata.timestamp := StoreResult.timestamp result |} |}
  /\ pick clock_reading (trace (snd (S3Store.retrieve env self k s)))
     = pick clock_reading (trace s).
Proof.
  intros Hresult Hkey Hput Hget.
  destruct (S3Store_store_trace self data key w)
    as (t0 & t1 & cmd' & reply & Htrace & Hcmd & Hout).
  rewrite Htrace in Hput. rewrite Hout in Hresult.
  assert (cmd' = cmd) as ->.
  { destruct (S3Store.objectLockEnabled self); cbn in Hput; congruence. }
  destruct reply as [[]|f]; [|discriminate]. injection Hresult as <-.
  assert (Hbody : PutObjectCommand.Body cmd = Buffer_from data) by (subst cmd; reflexivity).
  assert (Hmeta : PutObjectCommand.Metadata cmd = s3_metadata (Buffer_from data) t0)
    by (subst cmd; reflexivity).
  rewrite Hbody, Hmeta in Hget. clear Hcmd Hput.
  erewrite S3Store_retrieve_attributed; [| exact Hget | reflexivity | | | ].
  - cbn [fst snd trace]. split; [reflexivity|].
    rewrite pick_app. cbn. rewrite app_nil_r. reflexivity.
  - unfold stored_hash. cbn [GetObjectOutput.Metadata mbind option_bind].
    apply s3_metadata_hash.
  - cbn [GetObjectOutput.Metadata mbind option_bind]. apply s3_metadata_timestamp.
  - apply toISOString_truthy.
Qed.

(** An object whose [content-hash] attribute is missing or empty is not
    verified: [S3Store.retrieve] returns its bytes with the hash recomputed
    from them and their length, after reading the clock. *)
Theorem S3Store_retrieve_without_stored_hash
    (self : S3Store.t) key (w : W) response data :
  fst (GetObject env (S3Store.client self) (s3_request self key) w) = ok response ->
  GetObjectOutput.Body response = Some (ok data) ->
  truthy (stored_hash response) = false ->
  exists t ts,
    head (pick clock_reading (trace (snd (run (S3Store.retrieve env self key) w)))) = Some t
    /\ fst (run (S3Store.retrieve env self key) w)
       = fulfilled {| RetrieveResult.data := data;
                      RetrieveResult.metadata :=
                        {| IntegrityMetadata.hash := sha256 (Buffer data);
                           IntegrityMetadata.size := Z.of_nat (length data);
                           IntegrityMetadata.timestamp := ts |} |}.
Proof.
  intros Hreply Hbody Hhash.
  unfold run, S3Store.retrieve. fold (s3_request self key).
  cbv [bind ret send_GetObject call record await throw transformToByteArray world trace].
  destruct (GetObject env _ _ w) as [reply w1]. cbn [fst snd] in *. subst reply.
  rewrite Hbody. fold (stored_hash response). rewrite Hhash. cbn [andb].
  rewrite or_else_falsy by assumption.
  rewrite generateIntegrityMetadata_run. cbn [IntegrityMetadata.hash world trace fst snd].
  destruct (clock env w1) as [t w2]. cbn [fst snd].
  unfold or_else, Date_toISOString, Date_now, call, record, bind, ret.
  destruct (GetObjectOutput.Metadata response ≫= (.!! "upload-timestamp")) as [u|];
    [destruct (truthy (Some u))|]; cbn [world trace fst snd];
    try destruct (clock env w2) as [t' w3]; cbn [fst snd].
  all: eexists t, _; split; reflexivity.
Qed.

(** *** Reading from IPFS *)

(** [IPFSStore.retrieve] issues one [cat]. If the stream fails, even after
    yielding chunks, the failure is thrown and nothing is returned; otherwise
    the data is the concatenation of the chunks in order, the hash and size
    are computed from it, and the timestamp is the time of the second clock
    reading of the retrieval, not a time of storage. *)
Theorem IPFSStore_retrieve_chunks (self : IPFSStore.t) ipfsHash (w : W) :
  let chunks := fst (cat env (IPFSStore.client self) ipfsHash (IPFSStore.timeout self) w) in
  let out := run (IPFSStore.retrieve env self ipfsHash) w in
  pick cat_path (trace (snd out)) = [ipfsHash]
  /\ match Iterated.failure chunks with
     | Some f =>
         fst out = rejected (ClientError f)
         /\ pick clock_reading (trace (snd out)) = []
     | None =>
         exists t1 t2,
           pick clock_reading (trace (snd out)) = [t1; t2]
           /\ fst out
              = fulfilled
                  {| RetrieveResult.data := concat (Iterated.yielded chunks);
                     RetrieveResult.metadata :=
                       {| IntegrityMetadata.hash :=
                            sha256 (Buffer (concat (Iterated.yielded chunks)));
                          IntegrityMetadata.size :=
                            Z.of_nat (length (concat (Iterated.yielded chunks)));
                          IntegrityMetadata.timestamp := toISOString t2 |} |}
     end.
Proof.
  cbv zeta. unfold run, IPFSStore.retrieve.
  cbv [bind ret client_cat call record throw world trace].
  destruct (cat env _ _ _ w) as [chunks w1]; cbn [fst snd].
  destruct (Iterated.failure chunks) as [f|]; [repeat split|].
  rewrite generateIntegrityMetadata_run.
  cbn [IntegrityMetadata.hash IntegrityMetadata.size world trace fst snd].
  destruct (clock env w1) as [t1 w2]. cbn [fst snd].
  unfold Date_toISOString, Date_now, call, record, bind, ret; cbn [world trace fst snd].
  destruct (clock env w2) as [t2 w3]. cbn [fst snd app pick cat_path clock_reading].
  split; [reflexivity|]. exists t1, t2. split; reflexivity.
Qed.

(** *** Existence probes of the two adapters *)

(** [S3Store.exists] sends one [HeadObject]: it is true when the request
    succeeds, false when it fails with a failure named [NoSuchKey] or
    [NotFound], and rethrows any other failure. *)
Theorem S3Store_exists_distinguishes_not_found (self : S3Store.t) key (w : W) :
  let reply := fst (HeadObject env (S3Store.client self) (s3_request self key) w) in
  let out := run (S3Store.exists_ env self key) w in
  pick head_probe (trace (snd out)) = [s3_request self key]
  /\ match reply with
     | ok _ => fst out = fulfilled true
     | failed f =>
         if String.eqb (ClientFailure.name f) "NoSuchKey"
            || String.eqb (ClientFailure.name f) "NotFound"
         then fst out = fulfilled false
         else fst out = rejected (ClientError f)
     end.
Proof.
  cbv zeta. unfold run. rewrite S3Store_exists_run. cbn [fst snd world trace app pick head_probe].
  split; [reflexivity|].
  destruct (fst (HeadObject env _ _ w)) as [[]|f]; [reflexivity|].
  destruct (_ || _); reflexivity.
Qed.

(** [IPFSStore.exists] lists the pins of the one path and never throws: it
    is true exactly when the first result listed is the hash asked for,
    and false when nothing is listed, the listing fails, or another
    identifier comes first. *)
Theorem IPFSStore_exists_never_throws (self : IPFSStore.t) ipfsHash (w : W) :
  let results := fst (pin_ls env (IPFSStore.client self) [ipfsHash] w) in
  let out := run (IPFSStore.exists_ env self ipfsHash) w in
  pick pin_probe (trace (snd out)) = [[ipfsHash]]
  /\ exists found,
       fst out = fulfilled found
       /\ (found = true <-> exists rest, Iterated.yielded results = ipfsHash :: rest).
Proof.
  cbv zeta. unfold run. rewrite IPFSStore_exists_run.
  cbn [fst snd world trace app pick pin_probe].
  split; [reflexivity|]. eexists. split; [reflexivity|].
  destruct (Iterated.yielded _) as [|cid rest].
  - split; [discriminate | intros [? ?]; discriminate].
  - rewrite String.eqb_eq. split; [intros ->; eauto | intros [? [= -> _]]; reflexivity].
Qed.

(** *** The read paths of the orchestrator *)

Lemma both_None {A} (field : option string) (store : option A) :
  both field store = None <-> truthy field = false \/ store = None.
Proof.
  unfold both. destruct field as [f|], store as [x|]; cbn [truthy].
  - destruct (negb (String.eqb f "")); split; auto; try discriminate.
    intros [?|?]; discriminate.
  - split; auto.
  - split; auto.
  - split; auto.
Qed.

(** When the selector names an S3 key, the S3 backend is configured and the
    S3 read succeeds, [retrieve] is that read: the IPFS backend is not
    consulted, whether or not the selector names an IPFS hash. *)
Theorem retrieve_prefers_s3
    (self : EvidenceStore.t) (source : Source.t) key s3 result (w : W) :
  Source.s3Key source = Some key ->
  truthy (Source.s3Key source) = true ->
  EvidenceStore.s3Store self = Some s3 ->
  fst (run (S3Store.retrieve env s3 key) w) = fulfilled result ->
  run (EvidenceStore.retrieve env self source) w = run (S3Store.retrieve env s3 key) w
  /\ pick cat_path (trace (snd (run (EvidenceStore.retrieve env self source) w))) = [].
Proof.
  intros Hkey Hpresent Hs3 Hok.
  assert (Hboth : both (Source.s3Key source) (EvidenceStore.s3Store self) = Some (key, s3))
    by (apply both_Some; auto).
  assert (Hrun : run (EvidenceStore.retrieve env self source) w
                 = run (S3Store.retrieve env s3 key) w).
  { unfold run in *. unfold EvidenceStore.retrieve. rewrite Hboth.
    cbv [bind try_catch ret throw].
    destruct (S3Store.retrieve env s3 key _) as [r s1]. cbn [fst] in Hok. subst r.
    reflexivity. }
  split; [exact Hrun|]. rewrite Hrun. unfold run.
  destruct (S3Store_retrieve_trace s3 key (Machine w [])) as (clocks & ->).
  cbn [trace app pick cat_path]. apply pick_clocks. reflexivity.
Qed.

(** When neither path applies (each selector field is missing or empty, or
    its backend is not configured), [retrieve] throws "No valid storage
    source provided or available" without contacting any backend. *)
Theorem retrieve_without_usable_source
    (self : EvidenceStore.t) (source : Source.t) (s : machine W) :
  truthy (Source.s3Key source) = false \/ EvidenceStore.s3Store self = None ->
  truthy (Source.ipfsHash source) = false \/ EvidenceStore.ipfsStore self = None ->
  EvidenceStore.retrieve env self source s
  = (rejected (Error "No valid storage source provided or available"), s).
Proof.
  intros Hs3 Hipfs. apply both_None in Hs3. apply both_None in Hipfs.
  unfold EvidenceStore.retrieve. rewrite Hs3, Hipfs. reflexivity.
Qed.

(** An IPFS read issues one [cat] and, besides, only reads the clock. *)
Lemma IPFSStore_retrieve_trace (self : IPFSStore.t) ipfsHash (s : machine W) :
  exists clocks,
    trace (snd (IPFSStore.retrieve env self ipfsHash s))
    = trace s ++ EvCat (IPFSStore.client self) ipfsHash (IPFSStore.timeout self)
                   (fst (cat env (IPFSStore.client self) ipfsHash (IPFSStore.timeout self)
                           (world s)))
                 :: map EvClock clocks.
Proof.
  unfold IPFSStore.retrieve.
  cbv [bind ret client_cat call record throw].
  destruct (cat env _ _ _ (world s)) as [chunks w1]; cbn [fst snd].
  destruct (Iterated.failure chunks); [exists []; reflexivity|].
  rewrite generateIntegrityMetadata_run.
  unfold Date_toISOString, Date_now, call, record, bind, ret; cbn [world trace fst snd].
  destruct (clock env w1) as [t1 w2]; cbn [fst snd].
  destruct (clock env w2) as [t2 w3]; cbn [fst snd].
  exists [t1; t2]. rewrite <- !app_assoc. reflexivity.
Qed.

(** When the S3 path does not apply and the selector names an IPFS hash with
    the IPFS backend configured, [retrieve] is the IPFS read, and S3 is not
    contacted. *)
Theorem retrieve_from_ipfs_alone
    (self : EvidenceStore.t) (source : Source.t) ipfsHash ipfs (w : W) :
  truthy (Source.s3Key source) = false \/ EvidenceStore.s3Store self = None ->
  Source.ipfsHash source = Some ipfsHash ->
  truthy (Source.ipfsHash source) = true ->
  EvidenceStore.ipfsStore self = Some ipfs ->
  run (EvidenceStore.retrieve env self source) w = run (IPFSStore.retrieve env ipfs ipfsHash) w
  /\ pick get_request (trace (snd (run (EvidenceStore.retrieve env self source) w))) = [].
Proof.
  intros Hs3 Hhash Hpresent Hipfs. apply both_None in Hs3.
  assert (Hboth : both (Source.ipfsHash source) (EvidenceStore.ipfsStore self)
                  = Some (ipfsHash, ipfs)) by (apply both_Some; auto).
  assert (Hrun : run (EvidenceStore.retrieve env self source) w
                 = run (IPFSStore.retrieve env ipfs ipfsHash) w).
  { unfold run, EvidenceStore.retrieve. rewrite Hs3, Hboth. reflexivity. }
  split; [exact Hrun|]. rewrite Hrun. unfold run.
  destruct (IPFSStore_retrieve_trace ipfs ipfsHash (Machine w [])) as (clocks & ->).
  cbn [trace app pick get_request]. apply pick_clocks. reflexivity.
Qed.

(** When the S3 read fails and the IPFS fallback fails too, [retrieve] throws
    the IPFS error; the S3 error is lost. *)
Theorem retrieve_reports_last_error
    (self : EvidenceStore.t) (source : Source.t) key s3 ipfsHash ipfs e1 e2
    (s s1 s2 : machine W) :
  Source.s3Key source = Some key ->
  truthy (Source.s3Key source) = true ->
  EvidenceStore.s3Store self = Some s3 ->
  Source.ipfsHash source = Some ipfsHash ->
  truthy (Source.ipfsHash source) = true ->
  EvidenceStore.ipfsStore self = Some ipfs ->
  S3Store.retrieve env s3 key s = (rejected e1, s1) ->
  IPFSStore.retrieve env ipfs ipfsHash s1 = (rejected e2, s2) ->
  EvidenceStore.retrieve env self source s = (rejected e2, s2).
Proof.
  intros Hkey Hpresent Hs3 Hhash Hhash_present Hipfs Hfail1 Hfail2.
  unfold EvidenceStore.retrieve.
  replace (both (Source.s3Key source) (EvidenceStore.s3Store self)) with (Some (key, s3))
    by (symmetry; apply both_Some; auto).
  replace (both (Source.ipfsHash source) (EvidenceStore.ipfsStore self))
    with (Some (ipfsHash, ipfs)) by (symmetry; apply both_Some; auto).
  cbv [bind try_catch ret throw]. rewrite Hfail1, Hhash_present. cbn [negb].
  exact Hfail2.
Qed.

(** *** Metadata queries *)

Lemma EvidenceStore_retrieve_size (self : EvidenceStore.t) source (s : machine W) result :
  fst (EvidenceStore.retrieve env self source s) = fulfilled result ->
  IntegrityMetadata.size (RetrieveResult.metadata result)
  = Z.of_nat (length (RetrieveResult.data result)).
Proof.
  assert (Hs3 : forall s3 key s0 r, fst (S3Store.retrieve env s3 key s0) = fulfilled r ->
            IntegrityMetadata.size (RetrieveResult.metadata r)
            = Z.of_nat (length (RetrieveResult.data r))).
  { intros s3 key s0 r. destruct (S3Store_retrieve_run env s3 key s0) as (ts & s' & ->).
    cbn [fst]. destruct (fst (GetObject env _ _ (world s0))) as [response|f]; [|discriminate].
    destruct (GetObjectOutput.Body response) as [[data|f]|]; [|discriminate..].
    destruct (truthy _ && _); [discriminate|]. intros [= <-]. reflexivity. }
  assert (Hipfs : forall ipfs h s0 r, fst (IPFSStore.retrieve env ipfs h s0) = fulfilled r ->
            IntegrityMetadata.size (RetrieveResult.metadata r)
            = Z.of_nat (length (RetrieveResult.data r))).
  { intros ipfs h s0 r. destruct (IPFSStore_retrieve_run env ipfs h s0) as (ts & s' & ->).
    cbn [fst]. destruct (Iterated.failure _); [discriminate|]. intros [= <-]. reflexivity. }
  unfold EvidenceStore.retrieve. cbv [bind try_catch ret throw].
  destruct (both (Source.s3Key source) (EvidenceStore.s3Store self)) as [[key s3]|].
  - destruct (S3Store.retrieve env s3 key s) as [[r|e] s1] eqn:E.
    + intros [= <-]. apply (Hs3 s3 key s). rewrite E. reflexivity.
    + destruct (negb (truthy (Source.ipfsHash source))); [discriminate|].
      destruct (both (Source.ipfsHash source) (EvidenceStore.ipfsStore self))
        as [[h ipfs]|]; [|discriminate].
      apply Hipfs.
  - destruct (both (Source.ipfsHash source) (EvidenceStore.ipfsStore self))
      as [[h ipfs]|]; [|discriminate].
    apply Hipfs.
Qed.

(** The metadata returned by [getMetadata] echoes the selector's two fields,
    whichever backend served the read, and its hash and size are the hash
    and length of the bytes retrieved. *)
Theorem getMetadata_describes_retrieved_bytes
    (self : EvidenceStore.t) (source : Source.t) (s s' : machine W) md :
  EvidenceStore.getMetadata env self source s = (fulfilled md, s') ->
  EvidenceMetadata.s3Key md = Source.s3Key source
  /\ EvidenceMetadata.ipfsHash md = Source.ipfsHash source
  /\ exists result,
       EvidenceStore.retrieve env self source s = (fulfilled result, s')
       /\ EvidenceMetadata.hash md = sha256 (Buffer (RetrieveResult.data result))
       /\ EvidenceMetadata.size md = Z.of_nat (length (RetrieveResult.data result))
       /\ EvidenceMetadata.timestamp md
          = IntegrityMetadata.timestamp (RetrieveResult.metadata result).
Proof.
  unfold EvidenceStore.getMetadata. unfold bind at 1.
  destruct (EvidenceStore.retrieve env self source s) as [[result|e] s1] eqn:E;
    [|discriminate].
  cbv [ret]. intros [= <- <-].
  cbn [EvidenceMetadata.s3Key EvidenceMetadata.ipfsHash EvidenceMetadata.hash
       EvidenceMetadata.size EvidenceMetadata.timestamp].
  split; [reflexivity|]. split; [reflexivity|]. exists result.
  split; [reflexivity|]. split; [|split; [|reflexivity]].
  - apply (EvidenceStore_retrieve_hash env self source s). rewrite E. reflexivity.
  - apply (EvidenceStore_retrieve_size self source s). rewrite E. reflexivity.
Qed.

(** [exists] sends one [HeadObject] when the S3 key is named and the S3
    backend configured, one [pin.ls] when the IPFS hash is named and the
    IPFS backend configured, whatever the outcome of the other probe, and
    never reads an object. *)
Theorem exists_probes_named_backends (self : EvidenceStore.t) (source : Source.t) (w : W) :
  let out := run (EvidenceStore.exists_ env self source) w in
  pick head_probe (trace (snd out))
  = match both (Source.s3Key source) (EvidenceStore.s3Store self) with
    | Some (key, s3) => [s3_request s3 key]
    | None => []
    end
  /\ pick pin_probe (trace (snd out))
     = match both (Source.ipfsHash source) (EvidenceStore.ipfsStore self) with
       | Some (ipfsHash, _) => [[ipfsHash]]
       | None => []
       end
  /\ pick get_request (trace (snd out)) = []
  /\ pick cat_path (trace (snd out)) = [].
Proof.
  cbv zeta. unfold run, EvidenceStore.exists_.
  cbv [allSettled settle bind ret].
  destruct (both (Source.s3Key source) (EvidenceStore.s3Store self)) as [[key s3]|];
    destruct (both (Source.ipfsHash source) (EvidenceStore.ipfsStore self)) as [[h ipfs]|];
    rewrite ?S3Store_exists_run; cbn [world trace fst snd app];
    rewrite ?IPFSStore_exists_run; cbn [world trace fst snd app];
    repeat split.
Qed.

(** *** Writing through the orchestrator *)

Ltac settle_write :=
  match goal with
  | |- context [S3Store.store env ?a ?b ?c ?s] =>
      let r := fresh "r" in
      destruct (S3Store_store_run env a b c s) as (? & ? & r & ? & ? & ? & ? & ->);
      destruct r as [[]|?]
  | |- context [IPFSStore.store env ?a ?b ?s] =>
      let r := fresh "r" in
      destruct (IPFSStore_store_run env a b s) as (r & ? & ->);
      destruct r as [?|?]
  end.

(** What a result of [EvidenceStore.store] holds. *)
Lemma EvidenceStore_store_result (self : EvidenceStore.t) data options (w : W) result :
  fst (run (EvidenceStore.store env self data options) w) = fulfilled result ->
  StoreResult.hash result = sha256 data
  /\ StoreResult.size result = Z.of_nat (length (Buffer_from data))
  /\ (forall k, StoreResult.s3Key result = Some k ->
        k = match options ≫= StoreOptions.s3Key with
            | Some k' => k'
            | None => "evidence/" +:+ slice 2 (sha256 data)
            end).
Proof.
  unfold run, EvidenceStore.store. unfold bind at 1.
  rewrite generateIntegrityMetadata_run. cbn [world trace app].
  destruct (clock env w) as [t w1]. cbn [fst snd].
  destruct self as [[s3|] [ipfs|]];
    cbv [fmap option_fmap option_map filter_Boolean omap list_omap id EvidenceStore.s3Store
         EvidenceStore.ipfsStore allSettled settle bind ret];
    repeat (settle_write; cbn [world trace fst snd]);
    cbn; try discriminate; intros [= <-]; cbn.
  all: repeat split; try (destruct data; reflexivity); try discriminate.
  all: intros k [= <-];
    match goal with H : PutObjectCommand.Key _ = _ |- _ => rewrite H end;
    destruct data; reflexivity.
Qed.

(** The hash of a store result verifies against the data stored, and only
    against data with the same digest; its size is the byte length of the
    data and the hash is 66 characters long. *)
Theorem store_result_verifies (self : EvidenceStore.t) data options (w : W) result :
  fst (run (EvidenceStore.store env self data options) w) = fulfilled result ->
  verifyHash data (StoreResult.hash result) = true
  /\ (forall other, verifyHash other (StoreResult.hash result) = true ->
        sha256 other = sha256 data)
  /\ StoreResult.size result = Z.of_nat (length (Buffer_from data))
  /\ String.length (StoreResult.hash result) = 66%nat.
Proof.
  intros Hrun. destruct (EvidenceStore_store_result self data options w result Hrun)
    as (Hh & Hs & _).
  split; [apply verifyHash_iff; exact Hh|].
  split; [intros other Hv; apply verifyHash_iff in Hv; congruence|].
  split; [exact Hs|]. rewrite Hh.
  destruct (sha256_shape data) as (d & -> & Hl & _). cbn. rewrite Hl. reflexivity.
Qed.

(** The [s3Key] of a store result is the key given in the options when there
    is one, and otherwise ["evidence/"] followed by the hexadecimal digest
    of the content: storing the same bytes again yields the same key. *)
Theorem store_key_is_override_or_content_key
    (self : EvidenceStore.t) data options (w : W) result k :
  fst (run (EvidenceStore.store env self data options) w) = fulfilled result ->
  StoreResult.s3Key result = Some k ->
  k = match options ≫= StoreOptions.s3Key with
      | Some k' => k'
      | None => "evidence/" +:+ hex (SHA256.digest_bytes (map byte_val (Buffer_from data)))
      end.
Proof.
  intros Hrun Hk. destruct (EvidenceStore_store_result self data options w result Hrun)
    as (_ & _ & H). rewrite (H k Hk). destruct (options ≫= StoreOptions.s3Key); reflexivity.
Qed.

(** *** Construction of the IPFS adapter *)

(** An adapter that [new IPFSStore(config)] returns talks to the configured
    endpoint and adds the bytes with [pin: true] and the timeout of its
    client. That timeout is the configured one unless it is falsy: it is
    30000 when none is configured or the configured one is [0], [-0] or
    [NaN], so it is never one of these three. *)
Theorem IPFSStore_new_store_pins_with_timeout
    (lib : Libraries) (config : IPFSConfig.t) (self : IPFSStore.t) data (w : W) :
  IPFSStore.new lib config = fulfilled self ->
  let out := run (IPFSStore.store env self data) w in
  pick add_options (trace (snd out)) = [(true, IPFSStore.timeout self)]
  /\ pick added_content (trace (snd out)) = [Buffer_from data]
  /\ IPFSClient.url (IPFSStore.client self) = IPFSConfig.endpoint config
  /\ IPFSClient.timeout (IPFSStore.client self) = IPFSStore.timeout self
  /\ IPFSStore.timeout self <> SpecFloat.S754_nan
  /\ (forall s, IPFSStore.timeout self <> SpecFloat.S754_zero s)
  /\ (forall n, IPFSConfig.timeout config = Some n ->
        n <> SpecFloat.S754_nan -> (forall s, n <> SpecFloat.S754_zero s) ->
        IPFSStore.timeout self = n)
  /\ (forall n, IPFSConfig.timeout config = Some n ->
        n = SpecFloat.S754_nan \/ (exists s, n = SpecFloat.S754_zero s) ->
        IPFSStore.timeout self = Number_of_Z 30000)
  /\ (IPFSConfig.timeout config = None -> IPFSStore.timeout self = Number_of_Z 30000).
Proof.
  intros Hnew. cbv zeta. unfold run.
  destruct (IPFSStore_store_run env self data (Machine w [])) as (r & w' & ->).
  cbn [snd trace app pick add_options added_content clock_reading].
  split; [reflexivity|]. split; [reflexivity|].
  unfold IPFSStore.new, createIPFS, construct in Hnew.
  destruct (createIPFS_throws lib _); [discriminate Hnew|].
  cbn in Hnew. injection Hnew as <-. cbn [IPFSStore.client IPFSStore.timeout IPFSClient.url
                                           IPFSClient.timeout].
  split; [reflexivity|]. split; [reflexivity|].
  unfold IPFSStore.timeout_or_default.
  destruct (IPFSConfig.timeout config) as [n|].
  - destruct (Number_truthy n) eqn:En.
    + assert (Hnan : n <> SpecFloat.S754_nan) by (intros ->; discriminate En).
      assert (Hzero : forall s, n <> SpecFloat.S754_zero s) by (intros s ->; discriminate En).
      split; [exact Hnan|]. split; [exact Hzero|].
      split; [intros ? [= <-] _ _; reflexivity|].
      split; [|discriminate].
      intros ? [= <-] [H|(s & H)]; [contradiction|destruct (Hzero s H)].
    + apply Number_truthy_false in En.
      split; [discriminate|]. split; [discriminate|].
      split; [|split; [reflexivity|discriminate]].
      intros ? [= <-] Hnan Hzero. destruct En as [H|(s & H)];
        [contradiction|destruct (Hzero s H)].
  - split; [discriminate|]. split; [discriminate|].
    split; [discriminate|]. split; [discriminate|]. reflexivity.
Qed.

(** *** URLs *)

(** [getIPFSGatewayUrl] throws "IPFS store not configured" without an IPFS
    backend; with one it returns the gateway, ['https://ipfs.io'] unless one
    is given, followed by ["/ipfs/"] and the hash, and touches nothing. *)
Theorem getIPFSGatewayUrl_needs_the_backend
    (self : EvidenceStore.t) ipfsHash gateway (s : machine W) :
  match EvidenceStore.ipfsStore self with
  | None =>
      EvidenceStore.getIPFSGatewayUrl self ipfsHash gateway s
      = (rejected (Error "IPFS store not configured"), s)
  | Some _ =>
      exists url,
        EvidenceStore.getIPFSGatewayUrl self ipfsHash gateway s = (fulfilled url, s)
        /\ url = match gateway with
                 | Some g => g +:+ "/ipfs/" +:+ ipfsHash
                 | None => "https://ipfs.io/ipfs/" +:+ ipfsHash
                 end
  end.
Proof.
  unfold EvidenceStore.getIPFSGatewayUrl, IPFSStore.getGatewayUrl.
  destruct (EvidenceStore.ipfsStore self); [|reflexivity].
  eexists. split; [reflexivity|]. destruct gateway; reflexivity.
Qed.

(** [getSignedUrl] throws "S3 store not configured" without an S3 backend and
    does not call the presigner; with one it presigns a [GetObject] of the
    key in the configured bucket, with an expiry of 3600 unless one is
    given. *)
Theorem getSignedUrl_needs_the_backend
    (presign : S3Client.t -> ObjectRequest.t -> Z -> M W string)
    (self : EvidenceStore.t) key expiresIn (s : machine W) :
  match EvidenceStore.s3Store self with
  | None =>
      EvidenceStore.getSignedUrl presign self key expiresIn s
      = (rejected (Error "S3 store not configured"), s)
  | Some s3 =>
      EvidenceStore.getSignedUrl presign self key expiresIn s
      = presign (S3Store.client s3) (s3_request s3 key)
          match expiresIn with Some seconds => seconds | None => 3600 end s
  end.
Proof.
  unfold EvidenceStore.getSignedUrl, S3Store.getSignedUrl, s3_request.
  destruct (EvidenceStore.s3Store self); [|reflexivity]. destruct expiresIn; reflexivity.
Qed.
End Further.

(** ** Instances in the simulated world *)

Lemma IPFSStore_new_store_pins_with_timeout_witness :
  IPFSStore.new Sim.libraries Sim.nan_timeout = fulfilled Sim.ipfs_store
  /\ pick add_options
       (trace (snd (run (IPFSStore.store Sim.env Sim.ipfs_store (Text "hello world"))
                      Sim.fresh)))
     = [(true, Number_of_Z 30000)]
  /\ IPFSStore.timeout Sim.ipfs_store <> SpecFloat.S754_nan.
Proof.
  split; [reflexivity|].
  pose proof (IPFSStore_new_store_pins_with_timeout Sim.env Sim.libraries Sim.nan_timeout
                Sim.ipfs_store (Text "hello world") Sim.fresh eq_refl) as H.
  cbv zeta in H. split; [exact (proj1 H)|exact (proj1 (proj2 (proj2 (proj2 (proj2 H)))))].
Defined.

Lemma store_result_verifies_witness :
  exists result,
    fst (run (EvidenceStore.store Sim.env Sim.both_stores (Text "hello world") None)
           Sim.fresh) = fulfilled result
    /\ verifyHash (Text "hello world") (StoreResult.hash result) = true.
Proof.
  eexists. split; [vm_compute; reflexivity|].
  eapply (store_result_verifies Sim.env Sim.both_stores (Text "hello world") None Sim.fresh).
  vm_compute. reflexivity.
Defined.

Lemma store_key_is_override_or_content_key_witness :
  let options := Some {| StoreOptions.s3Key := Some "custom/path" |} in
  exists result,
    fst (run (EvidenceStore.store Sim.env Sim.s3_only (Text "hello world") options)
           Sim.fresh) = fulfilled result
    /\ StoreResult.s3Key result = Some "custom/path"
    /\ "custom/path"
       = match options ≫= StoreOptions.s3Key with
         | Some k' => k'
         | None =>
             "evidence/"
             +:+ hex (SHA256.digest_bytes (map byte_val (Buffer_from (Text "hello world"))))
         end.
Proof.
  cbv zeta. eexists. split; [vm_compute; reflexivity|]. split; [reflexivity|].
  eapply (store_key_is_override_or_content_key Sim.env Sim.s3_only (Text "hello world")
            (Some {| StoreOptions.s3Key := Some "custom/path" |}) Sim.fresh).
  - vm_compute. reflexivity.
  - reflexivity.
Defined.

Lemma S3Store_store_then_retrieve_witness :
  let self := Sim.s3_store in
  let stored := run (S3Store.store Sim.env self (Text "hello world") None) Sim.fresh in
  exists result k cmd,
    fst stored = fulfilled result
    /\ StoreResult.s3Key result = Some k
    /\ pick put_command (trace (snd stored)) = [cmd]
    /\ fst (GetObject Sim.env (S3Store.client self) (s3_request self k) (world (snd stored)))
       = ok {| GetObjectOutput.Body := Some (ok (PutObjectCommand.Body cmd));
               GetObjectOutput.Metadata := Some (PutObjectCommand.Metadata cmd) |}
    /\ fst (S3Store.retrieve Sim.env self k (snd stored))
       = fulfilled
           {| RetrieveResult.data := Sim.hello;
              RetrieveResult.metadata :=
                {| IntegrityMetadata.hash := StoreResult.hash result;
                   IntegrityMetadata.size := StoreResult.size result;
                   IntegrityMetadata.timestamp := StoreResult.timestamp result |} |}.
Proof.
  cbv zeta. do 3 eexists.
  split; [vm_compute; reflexivity|]. split; [reflexivity|].
  split; [vm_compute; reflexivity|]. split; [vm_compute; reflexivity|].
  refine (proj1 (S3Store_store_then_retrieve Sim.env Sim.s3_store
                   (Text "hello world") None Sim.fresh _ _ _ _ _ _ _ _));
    vm_compute; reflexivity.
Defined.

Lemma S3Store_retrieve_without_stored_hash_witness :
  let self := Sim.s3_store in
  truthy (Sim.objects Sim.legacy !! "evidence/legacy"
            ≫= (fun object => Sim.attributes object !! "content-hash")) = false
  /\ exists ts,
       fst (run (S3Store.retrieve Sim.env self "evidence/legacy") Sim.legacy)
       = fulfilled
           {| RetrieveResult.data := Sim.hello;
              RetrieveResult.metadata :=
                {| IntegrityMetadata.hash := sha256 (Buffer Sim.hello);
                   IntegrityMetadata.size := 11;
                   IntegrityMetadata.timestamp := ts |} |}.
Proof.
  cbv zeta. split; [vm_compute; reflexivity|].
  destruct (S3Store_retrieve_without_stored_hash Sim.env Sim.s3_store
              "evidence/legacy" Sim.legacy
              {| GetObjectOutput.Body := Some (ok Sim.hello);
                 GetObjectOutput.Metadata := Some ∅ |}
              Sim.hello) as (t & ts & _ & H);
    [vm_compute; reflexivity | reflexivity | reflexivity |].
  exists ts. exact H.
Defined.

Lemma retrieve_prefers_s3_witness :
  let source := {| Source.s3Key := Some "evidence/legacy";
                   Source.ipfsHash := Some "QmTest123" |} in
  exists result,
    fst (run (S3Store.retrieve Sim.env Sim.s3_store "evidence/legacy")
           Sim.legacy) = fulfilled result
    /\ RetrieveResult.data result = Sim.hello
    /\ run (EvidenceStore.retrieve Sim.env Sim.both_stores source) Sim.legacy
       = run (S3Store.retrieve Sim.env Sim.s3_store "evidence/legacy")
           Sim.legacy.
Proof.
  cbv zeta. eexists. split; [vm_compute; reflexivity|]. split; [reflexivity|].
  refine (proj1 (retrieve_prefers_s3 Sim.env Sim.both_stores
                   {| Source.s3Key := Some "evidence/legacy";
                      Source.ipfsHash := Some "QmTest123" |}
                   "evidence/legacy" Sim.s3_store _ Sim.legacy
                   eq_refl eq_refl eq_refl _)).
  vm_compute. reflexivity.
Defined.

Lemma retrieve_without_usable_source_witness :
  EvidenceStore.retrieve Sim.env Sim.s3_only
    {| Source.s3Key := Some ""; Source.ipfsHash := Some "QmTest123" |} (Machine Sim.fresh [])
  = (rejected (Error "No valid storage source provided or available"),
     Machine Sim.fresh []).
Proof.
  apply (retrieve_without_usable_source Sim.env Sim.s3_only
           {| Source.s3Key := Some ""; Source.ipfsHash := Some "QmTest123" |}).
  - left. reflexivity.
  - right. reflexivity.
Defined.

Lemma retrieve_from_ipfs_alone_witness :
  let source := {| Source.s3Key := Some "evidence/unreachable";
                   Source.ipfsHash := Some (Sim.cid_of Sim.hello) |} in
  run (EvidenceStore.retrieve Sim.env Sim.ipfs_only source) (Sim.pinned Sim.hello)
  = run (IPFSStore.retrieve Sim.env Sim.ipfs_store (Sim.cid_of Sim.hello))
      (Sim.pinned Sim.hello)
  /\ RetrieveResult.data
       <$> fst (run (EvidenceStore.retrieve Sim.env Sim.ipfs_only source)
                  (Sim.pinned Sim.hello)) = fulfilled Sim.hello.
Proof.
  cbv zeta. split; [|vm_compute; reflexivity].
  apply (retrieve_from_ipfs_alone Sim.env Sim.ipfs_only
           {| Source.s3Key := Some "evidence/unreachable";
              Source.ipfsHash := Some (Sim.cid_of Sim.hello) |}
           (Sim.cid_of Sim.hello) Sim.ipfs_store).
  - right. reflexivity.
  - reflexivity.
  - vm_compute. reflexivity.
  - reflexivity.
Defined.

Lemma retrieve_reports_last_error_witness :
  let source := {| Source.s3Key := Some "evidence/missing";
                   Source.ipfsHash := Some "QmMissing" |} in
  let s := Machine Sim.fresh [] in
  let s1 := snd (S3Store.retrieve Sim.env Sim.s3_store "evidence/missing" s) in
  let s2 := snd (IPFSStore.retrieve Sim.env Sim.ipfs_store "QmMissing" s1) in
  S3Store.retrieve Sim.env Sim.s3_store "evidence/missing" s
  = (rejected (ClientError Sim.NoSuchKey), s1)
  /\ IPFSStore.retrieve Sim.env Sim.ipfs_store "QmMissing" s1
     = (rejected (ClientError Sim.no_block), s2)
  /\ EvidenceStore.retrieve Sim.env Sim.both_stores source s
     = (rejected (ClientError Sim.no_block), s2).
Proof.
  cbv zeta.
  assert (H1 : S3Store.retrieve Sim.env Sim.s3_store "evidence/missing"
                 (Machine Sim.fresh [])
               = (rejected (ClientError Sim.NoSuchKey),
                  snd (S3Store.retrieve Sim.env Sim.s3_store
                         "evidence/missing" (Machine Sim.fresh []))))
    by (vm_compute; reflexivity).
  assert (H2 : IPFSStore.retrieve Sim.env Sim.ipfs_store "QmMissing"
                 (snd (S3Store.retrieve Sim.env Sim.s3_store
                         "evidence/missing" (Machine Sim.fresh [])))
               = (rejected (ClientError Sim.no_block),
                  snd (IPFSStore.retrieve Sim.env Sim.ipfs_store "QmMissing"
                         (snd (S3Store.retrieve Sim.env Sim.s3_store
                                 "evidence/missing" (Machine Sim.fresh []))))))
    by (vm_compute; reflexivity).
  split; [exact H1|]. split; [exact H2|].
  exact (retrieve_reports_last_error Sim.env Sim.both_stores
           {| Source.s3Key := Some "evidence/missing"; Source.ipfsHash := Some "QmMissing" |}
           "evidence/missing" Sim.s3_store
           "QmMissing" Sim.ipfs_store _ _ _ _ _
           eq_refl eq_refl eq_refl eq_refl eq_refl eq_refl H1 H2).
Defined.

Lemma getMetadata_describes_retrieved_bytes_witness :
  let source := {| Source.s3Key := None; Source.ipfsHash := Some (Sim.cid_of Sim.hello) |} in
  exists md s',
    EvidenceStore.getMetadata Sim.env Sim.ipfs_only source (Machine (Sim.pinned Sim.hello) [])
    = (fulfilled md, s')
    /\ EvidenceMetadata.s3Key md = None
    /\ EvidenceMetadata.ipfsHash md = Some (Sim.cid_of Sim.hello).
Proof.
  cbv zeta. do 2 eexists. split; [vm_compute; reflexivity|].
  split;
    eapply (getMetadata_describes_retrieved_bytes Sim.env Sim.ipfs_only
              {| Source.s3Key := None; Source.ipfsHash := Some (Sim.cid_of Sim.hello) |}
              (Machine (Sim.pinned Sim.hello) []));
    vm_compute; reflexivity.
Defined.
